(** * tokeneth.handlers: balance, skeleton and submission handlers

    A shallow embedding of [src/tokeneth/handlers.py].  The three handlers
    that carry the transaction orchestration logic are modelled:

    - [BalanceMixin.get_balances] and [BalanceHandler.get],
    - [TransactionSkeletonHandler.post],
    - [SendTransactionHandler.post].

    Every handler is a computation in a small state-and-exception monad over
    the two stores the handlers touch (the redis nonce cache and the
    [transactions] table) together with a chronological trace of the calls
    made to the outside world.  The Ethereum node is an oracle passed to the
    handlers, the way [self.eth] is; the transaction codec, the validators and
    the request verification of the imported packages are an interface. *)

From Stdlib Require Import ZArith String Ascii Strings.Byte.
From Stdlib Require Import DecimalString HexadecimalString DecimalZ DecimalPos.
From stdpp Require Import base option list strings gmap fin_maps.

Local Open Scope string_scope.
Local Open Scope list_scope.
Local Open Scope Z_scope.

#[local] Set Warnings "-register-all".

(** ** Python built-ins used by the handlers *)

Module Py.

(** [str(n)] for an [int]: decimal digits, with a leading minus sign for
    negative numbers. *)
Definition str (n : Z) : string :=
  DecimalString.NilZero.string_of_int (Z.to_int n).

(** [hex(n)]: ["0x"] and lower-case digits, the sign before the prefix. *)
Definition hex (n : Z) : string :=
  let digits := HexadecimalString.NilZero.string_of_uint (N.to_hex_uint (Z.abs_N n)) in
  if n <? 0 then "-0x" +:+ digits else "0x" +:+ digits.

(** The characters [bytes.strip()] and [int()] treat as white space. *)
Definition is_space (a : ascii) : bool :=
  let n := N_of_ascii a in
  ((9 <=? n) && (n <=? 13))%N || (n =? 32)%N.

Fixpoint lstrip (s : string) : string :=
  match s with
  | String a r => if is_space a then lstrip r else s
  | EmptyString => EmptyString
  end.

(** Drops trailing white space: a run of spaces is kept only when something
    other than white space follows it. *)
Fixpoint rstrip (s : string) : string :=
  match s with
  | String a r =>
      match rstrip r with
      | EmptyString => if is_space a then EmptyString else String a EmptyString
      | r' => String a r'
      end
  | EmptyString => EmptyString
  end.

Definition is_digit (a : ascii) : bool :=
  let n := N_of_ascii a in (48 <=? n)%N && (n <=? 57)%N.

Fixpoint all_digits (s : string) : bool :=
  match s with
  | EmptyString => true
  | String a r => is_digit a && all_digits r
  end.

(** Digit groups: single underscores are allowed between digits, nowhere
    else.  [after_digit] tells whether the previous character was a digit.
    The result is the literal without its underscores. *)
Fixpoint ungroup (after_digit : bool) (s : string) : option string :=
  match s with
  | EmptyString => if after_digit then Some EmptyString else None
  | String a r =>
      if is_digit a then String a <$> ungroup true r
      else if (Ascii.eqb a "_" && after_digit)%bool then
        match r with
        | EmptyString => None
        | _ => ungroup false r
        end
      else None
  end.

Definition digits_value (s : string) : option Z :=
  lit ← ungroup false s;
  Z.of_uint <$> DecimalString.NilZero.uint_of_string lit.

(** [int(s)] for a byte string [s] in base ten: surrounding white space is
    ignored, one sign is allowed.  [None] stands for [ValueError]. *)
Definition int (s : string) : option Z :=
  match rstrip (lstrip s) with
  | String a r =>
      if Ascii.eqb a "-" then Z.opp <$> digits_value r
      else if Ascii.eqb a "+" then digits_value r
      else digits_value (String a r)
  | EmptyString => None
  end.

(** Truth value of a byte string: empty is false. *)
Definition truthy (s : string) : bool :=
  match s with EmptyString => false | _ => true end.

End Py.

(** ** Data model *)

(** A value of a parsed JSON request body.  [JNull] is Python's [None]; a
    number with a fraction or an exponent keeps its literal. *)
Inductive json : Type :=
| JNull
| JBool (b : bool)
| JInt (n : Z)
| JFloat (literal : string)
| JString (s : string)
| JArray (items : list json)
| JObject (members : list (string * json)).

#[global] Instance json_inhabited : Inhabited json := populate JNull.

(** [d.get(k)]: [None] when the key is absent. *)
Definition dict_get (d : gmap string json) (k : string) : json :=
  default JNull (d !! k).

(** [k in d]. *)
Definition has_key (d : gmap string json) (k : string) : bool :=
  bool_decide (is_Some (d !! k)).

(** Exceptions.  [JSONHTTPError status errors] carries the list of
    [(id, message)] pairs of its body [{'errors': [...]}]; [JsonRPCError]
    carries the error object the node returned. *)
Inductive exn : Type :=
| JSONHTTPError (status : Z) (errors : list (string * string))
| JsonRPCError (error : json)
| ValueError
| TypeError
| UniqueViolationError
| LibraryError (what : string).

(** A row of the [transactions] table.  Amounts are stored as text;
    [confirmed] is [NULL] until the monitor sees the transaction in a block. *)
Record Row : Type := {
  transaction_hash : string;
  from_address : string;
  to_address : string;
  value : string;
  estimated_gas_cost : string;
  sender_token_id : option string;
  confirmed : option Z
}.

(** The Ethereum node behind [self.eth]: every call either returns or raises
    [JsonRPCError] with the node's error object ([inl]). *)
Record Chain : Type := {
  eth_getBalance : string → json + Z;
  eth_getTransactionCount : string → json + Z;
  eth_sendRawTransaction : string → json + string
}.

(** Calls made to the outside world, in the order they are made. *)
Inductive Event : Type :=
| EthGetBalance (address : string)
| EthGetTransactionCount (address : string)
| EthSendRawTransaction (raw : string) (answer : json + string)
| RedisGet (key : string)
| RedisSet (key val : string)
| DbFetchSent (address : string)
| DbFetchReceived (address : string)
| DbInsert (row : Row)
| DbCommit.

(** The stores behind [self.redis] and [self.db], and the calls made so far. *)
Record World : Type := {
  redis : gmap string string;
  db : list Row;
  trace : list Event
}.

Definition record_event (e : Event) (w : World) : World :=
  {| redis := redis w; db := db w; trace := trace w ++ [e] |}.

Definition set_redis (m : gmap string string) (w : World) : World :=
  {| redis := m; db := db w; trace := trace w |}.

Definition set_db (l : list Row) (w : World) : World :=
  {| redis := redis w; db := l; trace := trace w |}.

(** ** The handler monad: state and exceptions *)

Definition M (A : Type) : Type := World → (exn + A) * World.

#[global] Instance M_ret : MRet M := λ A x w, (inr x, w).

#[global] Instance M_bind : MBind M := λ A B f m w,
  match m w with
  | (inr x, w') => f x w'
  | (inl e, w') => (inl e, w')
  end.

Definition raise {A : Type} (e : exn) : M A := λ w, (inl e, w).

Definition lift {A : Type} (r : exn + A) : M A := λ w, (r, w).

Definition gets {A : Type} (f : World → A) : M A := λ w, (inr (f w), w).

Definition modify (f : World → World) : M unit := λ w, (inr (), f w).

Definition emit (e : Event) : M unit := modify (record_event e).

(** [raise JSONHTTPError(status, body={'errors': [{'id': id, 'message': message}]})] *)
Definition http_error (status : Z) (id message : string) : exn :=
  JSONHTTPError status [(id, message)].

(** A call to the node: a [JsonRPCError] propagates. *)
Definition rpc {A : Type} (answer : json + A) : M A :=
  match answer with
  | inr x => mret x
  | inl err => raise (JsonRPCError err)
  end.

(** [self.redis.get(key)]: the stored bytes, or [None]. *)
Definition redis_get (key : string) : M (option string) :=
  _ ← emit (RedisGet key); gets (λ w, redis w !! key).

(** [self.redis.set(key, n)] for an [int]: the client stores its decimal
    representation. *)
Definition redis_set (key : string) (n : Z) : M unit :=
  _ ← emit (RedisSet key (Py.str n));
  modify (λ w, set_redis (<[key := Py.str n]> (redis w)) w).

(** The two [SELECT]s of [get_balances]. *)
Definition pending_from (a : string) (r : Row) : Prop :=
  confirmed r = None ∧ from_address r = a.

Definition pending_to (a : string) (r : Row) : Prop :=
  confirmed r = None ∧ to_address r = a.

#[global] Instance pending_from_dec a r : Decision (pending_from a r).
Proof. unfold pending_from. apply _. Defined.

#[global] Instance pending_to_dec a r : Decision (pending_to a r).
Proof. unfold pending_to. apply _. Defined.

Definition fetch_pending_sent (a : string) : M (list Row) :=
  _ ← emit (DbFetchSent a); gets (λ w, filter (pending_from a) (db w)).

Definition fetch_pending_received (a : string) : M (list Row) :=
  _ ← emit (DbFetchReceived a); gets (λ w, filter (pending_to a) (db w)).

(** Modelled from the spec: the schema of the [transactions] table, of which
    the spec says that [transactionHash] is the primary key.  The [INSERT]
    of a hash that is already in the table raises and leaves the table as it
    was; otherwise the row is added and the transaction committed. *)
Definition insert_transaction (r : Row) : M unit :=
  _ ← emit (DbInsert r);
  rows ← gets db;
  if bool_decide (Exists (λ r', transaction_hash r' = transaction_hash r) rows)
  then raise UniqueViolationError
  else _ ← modify (set_db (rows ++ [r])); emit DbCommit.

(** [sum(f(p) for p in rows)], starting from [acc]; [None] when some [int()]
    raises [ValueError]. *)
Fixpoint py_sum {A : Type} (f : A → option Z) (acc : Z) (rows : list A) : option Z :=
  match rows with
  | [] => Some acc
  | p :: rows => v ← f p; py_sum f (acc + v) rows
  end.

Definition or_value_error {A : Type} (o : option A) : M A :=
  match o with
  | Some x => mret x
  | None => raise ValueError
  end.

(** ** The imported packages

    [tokenbrowser.tx], [tokenbrowser.utils] and the request verification of
    [tokenservices.handlers] are not part of this repository: the handlers are
    written against their interface.  A transaction is an object with the
    attributes [nonce], [gasprice], [startgas], [to], [value] and [sender];
    [sender] is recovered from the signature and may raise.  [validate_address]
    and [validate_signature] are predicates on strings (any other value is
    rejected, see [address_of] and [signature_of]); [parse_int] returns an
    [int] or [None]; [decode_transaction] and [data_decoder] return [None]
    where the Python functions raise. *)
Class External : Type := {
  Transaction : Type;
  tx_nonce : Transaction → Z;
  tx_gasprice : Transaction → Z;
  tx_startgas : Transaction → Z;
  tx_to : Transaction → list byte;
  tx_value : Transaction → Z;
  tx_sender : Transaction → exn + list byte;
  DEFAULT_STARTGAS : Z;
  DEFAULT_GASPRICE : Z;
  (** [create_transaction(nonce=, gasprice=, startgas=, to=, value=)] *)
  create_transaction : Z → Z → Z → string → Z → Transaction;
  encode_transaction : Transaction → string;
  decode_transaction : json → option Transaction;
  is_transaction_signed : Transaction → bool;
  signature_from_transaction : Transaction → string;
  add_signature_to_transaction : Transaction → list byte → Transaction;
  validate_address : string → bool;
  validate_signature : string → bool;
  parse_int : json → option Z;
  data_decoder : string → option (list byte);
  data_encoder : list byte → string;
  Headers : Type;
  is_request_signed : Headers → bool;
  verify_request : Headers → exn + string
}.

Definition require {A : Type} (o : option A) (e : exn) : M A :=
  match o with
  | Some x => mret x
  | None => raise e
  end.

(** The value [x] when [validate_address(x)] holds. *)
Definition address_of `{External} (x : json) : option string :=
  match x with
  | JString s => if validate_address s then Some s else None
  | _ => None
  end.

(** The value [x] when [validate_signature(x)] holds. *)
Definition signature_of `{External} (x : json) : option string :=
  match x with
  | JString s => if validate_signature s then Some s else None
  | _ => None
  end.

(** ["nonce:{}".format(address)] *)
Definition nonce_key (address : string) : string := "nonce:" +:+ address.

(** What the variable [nonce] (or [c_nonce]) holds after
    [x = self.redis.get(key)] and [if x: x = int(x)]. *)
Inductive cached_nonce : Type :=
| NoEntry
| Falsy (raw : string)
| Cached (n : Z).

(** The nonce both handlers reconcile from the cache and the node; it is the
    same code in [TransactionSkeletonHandler.post] (lines 101-109) and in
    [SendTransactionHandler.post] (lines 206-212).  Comparing the node's
    [int] with an empty byte string raises [TypeError]. *)
Definition reconciled_nonce (eth : Chain) (from_address : string) : M Z :=
  raw ← redis_get (nonce_key from_address);
  nonce ← match raw with
          | None => mret NoEntry
          | Some s =>
              if Py.truthy s
              then n ← or_value_error (Py.int s); mret (Cached n)
              else mret (Falsy s)
          end;
  _ ← emit (EthGetTransactionCount from_address);
  nw_nonce ← rpc (eth_getTransactionCount eth from_address);
  match nonce with
  | NoEntry => mret nw_nonce
  | Cached n => if nw_nonce >? n then mret nw_nonce else mret n
  | Falsy _ => raise TypeError
  end.

(** ** class BalanceMixin *)
Module BalanceMixin.

Definition get_balances (eth : Chain) (eth_address : string)
    (ignore_pending_recieved : bool) : M (Z * Z) :=
  _ ← emit (EthGetBalance eth_address);
  confirmed_balance ← rpc (eth_getBalance eth eth_address);
  pending_sent ← fetch_pending_sent eth_address;
  pending_sent ←
    match pending_sent with
    | [] => mret 0
    | _ => or_value_error
             (py_sum (λ p, v ← Py.int (value p);
                           g ← Py.int (estimated_gas_cost p);
                           Some (v + g)) 0 pending_sent)
    end;
  pending_recieved ←
    (if ignore_pending_recieved then mret 0
     else
       pending_recieved ← fetch_pending_received eth_address;
       match pending_recieved with
       | [] => mret 0
       | _ => or_value_error (py_sum (λ p, Py.int (value p)) 0 pending_recieved)
       end);
  let balance := confirmed_balance + pending_recieved - pending_sent in
  mret (confirmed_balance, balance).

End BalanceMixin.

(** ** class BalanceHandler *)
Module BalanceHandler.

Record Response : Type := {
  confirmed_balance : string;
  unconfirmed_balance : string
}.

Definition get `{External} (eth : Chain) (address : string) : M Response :=
  if negb (validate_address address)
  then raise (http_error 400 "invalid_address" "Invalid Address")
  else
    '(confirmed, unconfirmed) ← BalanceMixin.get_balances eth address false;
    mret {| confirmed_balance := Py.hex confirmed;
            unconfirmed_balance := Py.hex unconfirmed |}.

End BalanceHandler.

(** ** class TransactionSkeletonHandler *)
Module TransactionSkeletonHandler.

Record TxData : Type := {
  nonce : string;
  from : string;
  to : string;
  value : string;
  startGas : string;
  gasPrice : string
}.

Record Response : Type := {
  tx_data : TxData;
  tx : string
}.

(** An optional numeric argument: the default when the field is absent or
    [null], [parse_int] of it otherwise. *)
Definition optional `{External} (field : json) (default : M Z) (id message : string) : M Z :=
  match field with
  | JNull => default
  | _ => require (parse_int field) (http_error 400 id message)
  end.

Definition post `{External} (eth : Chain) (payload : gmap string json) : M Response :=
  if negb (has_key payload "value") || negb (has_key payload "to")
     || negb (has_key payload "from")
  then raise (http_error 400 "bad_arguments" "Bad Arguments")
  else
    let value := payload !!! "value" in
    let to_address := payload !!! "to" in
    let from_address := payload !!! "from" in
    from_address ← require (address_of from_address)
                     (http_error 400 "invalid_from_address" "Invalid From Address");
    to_address ← require (address_of to_address)
                   (http_error 400 "invalid_to_address" "Invalid To Address");
    value ← match parse_int value with
            | Some 0 | None => raise (http_error 400 "invalid_value" "Invalid Value")
            | Some v => mret v
            end;
    (* check optional arguments *)
    nonce ← optional (dict_get payload "nonce") (reconciled_nonce eth from_address)
              "invalid_nonce" "Invalid Nonce";
    gas ← optional (dict_get payload "gas") (mret DEFAULT_STARTGAS)
            "invalid_gas" "Invalid Gas";
    gas_price ← optional (dict_get payload "gas_price") (mret DEFAULT_GASPRICE)
                  "invalid_gas_price" "Invalid Gas Price";
    let tx := create_transaction nonce gas_price gas to_address value in
    let transaction := encode_transaction tx in
    mret {| tx_data := {| nonce := Py.hex nonce;
                          from := from_address;
                          to := to_address;
                          value := Py.hex value;
                          startGas := Py.hex gas;
                          gasPrice := Py.hex gas_price |};
            tx := transaction |}.

End TransactionSkeletonHandler.

(** ** class SendTransactionHandler *)
Module SendTransactionHandler.

Record Request `{External} : Type := {
  headers : Headers;
  body : gmap string json
}.

Record Response : Type := {
  tx_hash : string
}.

(** Lines 152-156: the token id of a signed request, [None] for an
    anonymous one. *)
Definition authenticate `{External} (h : Headers) : exn + option string :=
  if is_request_signed h
  then match verify_request h with
       | inr sender_token_id => inr (Some sender_token_id)
       | inl e => inl e
       end
  else inr None.

(** Lines 160-166. *)
Definition decode `{External} (payload : gmap string json) : exn + Transaction :=
  match payload !! "tx" with
  | None => inl (http_error 400 "bad_arguments" "Bad Arguments")
  | Some raw =>
      match decode_transaction raw with
      | None => inl (http_error 400 "invalid_transaction" "Invalid Transaction")
      | Some tx => inr tx
      end
  end.

(** [tx_sig != payload['signature']]: a string differs from every value
    that is not the same string. *)
Definition differs (tx_sig : string) (x : json) : bool :=
  match x with
  | JString s => negb (String.eqb tx_sig s)
  | _ => true
  end.

(** Lines 168-191.  The result is the transaction the rest of the handler
    works on: [add_signature_to_transaction] updates [tx] in place. *)
Definition reconcile_signature `{External} (payload : gmap string json)
    (tx : Transaction) : exn + Transaction :=
  let invalid_signature := http_error 400 "invalid_signature" "Invalid Signature" in
  if is_transaction_signed tx then
    match payload !! "signature" with
    | Some signature =>
        let tx_sig := signature_from_transaction tx in
        if differs tx_sig signature then inl invalid_signature else inr tx
    | None => inr tx
    end
  else
    match payload !! "signature" with
    | None => inl (http_error 400 "missing_signature" "Missing Signature")
    | Some signature =>
        match signature_of signature with
        | None => inl invalid_signature
        | Some signature =>
            match data_decoder signature with
            | None => inl invalid_signature
            | Some signature => inr (add_signature_to_transaction tx signature)
            end
        end
    end.

(** Lines 196-203: make sure the account has enough funds.  The [log.info]
    call between the two steps writes to the log only. *)
Definition check_funds `{External} (eth : Chain) (from_address : string)
    (tx : Transaction) : M unit :=
  '(network_balance, balance) ← BalanceMixin.get_balances eth from_address true;
  if balance <? tx_value tx + tx_startgas tx * tx_gasprice tx
  then raise (http_error 400 "insufficient_funds" "Insufficient Funds")
  else mret ().

(** Lines 205-215: validate the nonce. *)
Definition check_nonce `{External} (eth : Chain) (from_address : string)
    (tx : Transaction) : M unit :=
  c_nonce ← reconciled_nonce eth from_address;
  if tx_nonce tx <? c_nonce
  then raise (http_error 400 "invalid_nonce" "Provided nonce is too low")
  else mret ().

(** Lines 220-226: send the transaction to the network. *)
Definition broadcast `{External} (eth : Chain) (tx : Transaction) : M string :=
  let tx_encoded := encode_transaction tx in
  let answer := eth_sendRawTransaction eth tx_encoded in
  _ ← emit (EthSendRawTransaction tx_encoded answer);
  match answer with
  | inr tx_hash => mret tx_hash
  | inl e =>
      raise (http_error 500 "unexpected_error"
               "An error occured communicating with the ethereum network, try again later")
  end.


(** Lines 220-239: broadcast, then cache the nonce, add the row and
    answer. *)
Definition send_and_record `{External} (eth : Chain) (sender_token_id : option string)
    (tx : Transaction) (from_address to_address : string) : M Response :=
  tx_hash ← broadcast eth tx;
  (* cache nonce *)
  _ ← redis_set (nonce_key from_address) (tx_nonce tx + 1);
  (* add tx to database *)
  _ ← insert_transaction
        {| transaction_hash := tx_hash;
           from_address := from_address;
           to_address := to_address;
           value := Py.str (tx_value tx);
           estimated_gas_cost := Py.str (tx_startgas tx * tx_gasprice tx);
           sender_token_id := sender_token_id;
           confirmed := None |};
  mret {| tx_hash := tx_hash |}.

(** Lines 193-239: everything after the transaction and its signature are
    settled. *)
Definition submit `{External} (eth : Chain) (sender_token_id : option string)
    (tx : Transaction) : M Response :=
  sender ← lift (tx_sender tx);
  let from_address := data_encoder sender in
  let to_address := data_encoder (tx_to tx) in
  _ ← check_funds eth from_address tx;
  _ ← check_nonce eth from_address tx;
  send_and_record eth sender_token_id tx from_address to_address.

Definition post `{External} (eth : Chain) (request : Request) : M Response :=
  sender_token_id ← lift (authenticate (headers request));
  let payload := body request in
  tx ← lift (decode payload);
  tx ← lift (reconcile_signature payload tx);
  submit eth sender_token_id tx.

End SendTransactionHandler.

(** ** Observing a run *)

(** The calls that only read: they leave the cache and the ledger alone. *)
Definition is_read (e : Event) : bool :=
  match e with
  | EthGetBalance _ | EthGetTransactionCount _ | RedisGet _
  | DbFetchSent _ | DbFetchReceived _ => true
  | _ => false
  end.

Definition is_cache_write (e : Event) : bool :=
  match e with
  | RedisSet _ _ => true
  | _ => false
  end.

(** The calls that change the cache or the ledger. *)
Definition is_write (e : Event) : bool :=
  match e with
  | RedisSet _ _ | DbInsert _ | DbCommit => true
  | _ => false
  end.

(** A run ends in [JSONHTTPError status] with the error slug [id]. *)
Definition fails_with {A : Type} (run : (exn + A) * World) (status : Z) (id : string) : Prop :=
  ∃ message, fst run = inl (http_error status id message).

(** The error of a failed broadcast (lines 225-226). *)
Definition unexpected_error : exn :=
  http_error 500 "unexpected_error"
    "An error occured communicating with the ethereum network, try again later".

Definition add_events (evs : list Event) (w : World) : World :=
  {| redis := redis w; db := db w; trace := trace w ++ evs |}.

(** A computation that only reads: whatever it returns, the stores are as
    before and the trace has grown by read calls. *)
Definition observes {A : Type} (m : M A) : Prop :=
  ∀ w, ∃ evs, snd (m w) = add_events evs w ∧ Forall (λ e, is_read e = true) evs.

(** ** The ledger and the nonce floor in the words of the specification *)

(** A ledger row with its amounts as numbers. *)
Record Pending : Type := {
  hash : string;
  sender : string;
  recipient : string;
  amount : Z;
  gas_cost : Z;
  token_id : option string;
  confirmed_at : option Z
}.

(** The row as the table holds it: the amounts as decimal text, the way the
    [INSERT] of [SendTransactionHandler.post] writes them. *)
Definition store (p : Pending) : Row :=
  {| transaction_hash := hash p;
     from_address := sender p;
     to_address := recipient p;
     value := Py.str (amount p);
     estimated_gas_cost := Py.str (gas_cost p);
     sender_token_id := token_id p;
     confirmed := confirmed_at p |}.

Definition total (f : Pending → Z) (l : list Pending) : Z :=
  foldr (λ p acc, f p + acc) 0 l.

(** Σ value over the unconfirmed rows with [to_address = a]. *)
Definition pending_in (a : string) (l : list Pending) : Z :=
  total amount (filter (λ p, confirmed_at p = None ∧ recipient p = a) l).

(** Σ (value + estimated_gas_cost) over the unconfirmed rows with
    [from_address = a]. *)
Definition pending_out (a : string) (l : list Pending) : Z :=
  total (λ p, amount p + gas_cost p)
        (filter (λ p, confirmed_at p = None ∧ sender p = a) l).

(** [max(cached, chainN)], an absent cache entry counting as −∞. *)
Definition nonce_floor (cached : option Z) (chain_count : Z) : Z :=
  match cached with
  | Some c => Z.max c chain_count
  | None => chain_count
  end.

(** The row [SendTransactionHandler.post] inserts for [tx]. *)
Definition ledger_row `{External} (tx_hash from_address to_address : string)
    (tx : Transaction) (sender_token_id : option string) : Row :=
  {| transaction_hash := tx_hash;
     from_address := from_address;
     to_address := to_address;
     value := Py.str (tx_value tx);
     estimated_gas_cost := Py.str (tx_startgas tx * tx_gasprice tx);
     sender_token_id := sender_token_id;
     confirmed := None |}.

(** The calls of a successful broadcast and of the writes that follow it. *)
Definition commit_events `{External} (tx : Transaction) (tx_hash from_address : string)
    (row : Row) : list Event :=
  [ EthSendRawTransaction (encode_transaction tx) (inr tx_hash);
    RedisSet (nonce_key from_address) (Py.str (tx_nonce tx + 1));
    DbInsert row;
    DbCommit ].

(** A submission passes steps 1 to 4 of the pipeline: the request
    authenticates as [sender_token_id], its payload decodes, the signature is
    reconciled leaving the transaction [tx], and the sender of [tx] encodes to
    [from_address]. *)
Definition settled `{External} (request : SendTransactionHandler.Request)
    (sender_token_id : option string) (tx : Transaction) (from_address : string) : Prop :=
  SendTransactionHandler.authenticate (SendTransactionHandler.headers request)
    = inr sender_token_id
  ∧ (∃ tx0, SendTransactionHandler.decode (SendTransactionHandler.body request) = inr tx0
            ∧ SendTransactionHandler.reconcile_signature
                (SendTransactionHandler.body request) tx0 = inr tx)
  ∧ ∃ sender, tx_sender tx = inr sender ∧ from_address = data_encoder sender.

(** The required fields of a skeleton request are there and valid: the two
    addresses validate and [value] parses to a number other than zero. *)
Definition valid_skeleton_request `{External} (payload : gmap string json)
    (from_address to_address : string) (value : Z) : Prop :=
  payload !! "from" = Some (JString from_address)
  ∧ validate_address from_address = true
  ∧ payload !! "to" = Some (JString to_address)
  ∧ validate_address to_address = true
  ∧ (∃ v, payload !! "value" = Some v ∧ parse_int v = Some value)
  ∧ value ≠ 0.

(** An optional argument of a skeleton request: [None] when the field is
    absent (or [null]), [Some x] when it is there and [parse_int] reads it as
    [x]. *)
Definition supplies `{External} (payload : gmap string json) (field : string)
    (arg : option Z) : Prop :=
  match arg with
  | None => dict_get payload field = JNull
  | Some x => dict_get payload field ≠ JNull ∧ parse_int (dict_get payload field) = Some x
  end.

(** The cache entry for [address] is absent ([None]) or holds the nonce [c]
    as the service writes it. *)
Definition cache_holds (w : World) (address : string) (cached : option Z) : Prop :=
  redis w !! nonce_key address = Py.str <$> cached.

(** ** A small instance of the interface

    Used to run the handlers on concrete requests.  Transactions travel as
    text, [nonce/gasprice/startgas/to/value] with an optional sixth field for
    the signature, numbers and bytes in hexadecimal; the sender "recovered"
    from a signature is its first twenty bytes. *)
Module Demo.

Definition nibble (a : ascii) : option N :=
  let n := N_of_ascii a in
  if ((48 <=? n) && (n <=? 57))%N then Some (n - 48)%N
  else if ((97 <=? n) && (n <=? 102))%N then Some (n - 87)%N
  else None.

Definition digit_of (n : N) : ascii :=
  ascii_of_N (if (n <? 10)%N then n + 48 else n + 87)%N.

Fixpoint hex_of_bytes (l : list byte) : string :=
  match l with
  | [] => EmptyString
  | b :: l =>
      let n := Byte.to_N b in
      String (digit_of (n / 16)) (String (digit_of (n mod 16)) (hex_of_bytes l))
  end.

Fixpoint bytes_of_hex (s : string) : option (list byte) :=
  match s with
  | EmptyString => Some []
  | String a (String b r) =>
      hi ← nibble a; lo ← nibble b;
      x ← Byte.of_N (hi * 16 + lo);
      cons x <$> bytes_of_hex r
  | _ => None
  end.

Definition hex_bytes (l : list byte) : string := "0x" +:+ hex_of_bytes l.

Definition unhex_bytes (s : string) : option (list byte) :=
  match s with
  | String "0" (String "x" r) => bytes_of_hex r
  | _ => None
  end.

Definition unhex (s : string) : option Z :=
  match s with
  | String "0" (String "x" r) =>
      Z.of_hex_uint <$> HexadecimalString.NilZero.uint_of_string r
  | _ => None
  end.

Definition int_of_json (x : json) : option Z :=
  match x with
  | JInt n => if n <? 0 then None else Some n
  | JString s => unhex s
  | _ => None
  end.

Definition has_length (n : nat) (s : string) : bool :=
  match unhex_bytes s with
  | Some l => bool_decide (length l = n)
  | None => false
  end.

Record Tx : Type := {
  nonce : Z;
  gasprice : Z;
  startgas : Z;
  to : list byte;
  value : Z;
  signature : option (list byte)
}.

Definition recover (tx : Tx) : exn + list byte :=
  match signature tx with
  | Some sig => inr (take 20 sig)
  | None => inl (LibraryError "unsigned transaction")
  end.

Definition make (n gp sg : Z) (to_address : string) (v : Z) : Tx :=
  {| nonce := n; gasprice := gp; startgas := sg;
     to := default [] (unhex_bytes to_address); value := v; signature := None |}.

Definition add_signature (tx : Tx) (sig : list byte) : Tx :=
  {| nonce := nonce tx; gasprice := gasprice tx; startgas := startgas tx;
     to := to tx; value := value tx; signature := Some sig |}.

Definition signature_text (tx : Tx) : string :=
  hex_bytes (default [] (signature tx)).

Definition encode (tx : Tx) : string :=
  let body :=
    Py.hex (nonce tx) +:+ "/" +:+ Py.hex (gasprice tx) +:+ "/" +:+ Py.hex (startgas tx)
    +:+ "/" +:+ hex_bytes (to tx) +:+ "/" +:+ Py.hex (value tx) in
  match signature tx with
  | Some sig => body +:+ "/" +:+ hex_bytes sig
  | None => body
  end.

Fixpoint fields (s : string) : list string :=
  match s with
  | EmptyString => [EmptyString]
  | String a r =>
      if Ascii.eqb a "/" then EmptyString :: fields r
      else match fields r with
           | f :: fs => String a f :: fs
           | [] => [String a EmptyString]
           end
  end.

Definition decode (x : json) : option Tx :=
  match x with
  | JString s =>
      match fields s with
      | n :: gp :: sg :: t :: v :: rest =>
          n ← unhex n; gp ← unhex gp; sg ← unhex sg;
          t ← unhex_bytes t; v ← unhex v;
          sig ← match rest with
                | [] => Some None
                | [sig] => Some <$> unhex_bytes sig
                | _ => None
                end;
          Some {| nonce := n; gasprice := gp; startgas := sg; to := t;
                  value := v; signature := sig |}
      | _ => None
      end
  | _ => None
  end.

(** A request is signed when it carries a token id; the empty one does not
    verify. *)
Definition verify (h : option string) : exn + string :=
  match h with
  | Some EmptyString | None =>
      inl (http_error 400 "invalid_signature" "Invalid Signature")
  | Some token => inr token
  end.

#[global] Instance env : External := {|
  Transaction := Tx;
  tx_nonce := nonce;
  tx_gasprice := gasprice;
  tx_startgas := startgas;
  tx_to := to;
  tx_value := value;
  tx_sender := recover;
  DEFAULT_STARTGAS := 21000;
  DEFAULT_GASPRICE := 20000000000;
  create_transaction := make;
  encode_transaction := encode;
  decode_transaction := decode;
  is_transaction_signed := λ tx, bool_decide (is_Some (signature tx));
  signature_from_transaction := signature_text;
  add_signature_to_transaction := add_signature;
  validate_address := has_length 20;
  validate_signature := has_length 65;
  parse_int := int_of_json;
  data_decoder := unhex_bytes;
  data_encoder := hex_bytes;
  Headers := option string;
  is_request_signed := λ h, bool_decide (is_Some h);
  verify_request := verify
|}.

(** Sample data: two accounts, and a signature "of" Alice. *)
Definition alice : list byte := replicate 20 Byte.xaa.
Definition bob : list byte := replicate 20 Byte.xbb.
Definition alice_sig : list byte := alice ++ replicate 45 Byte.x01.
Definition alice_address : string := hex_bytes alice.
Definition bob_address : string := hex_bytes bob.

Definition node (balance count : Z) (send : json + string) : Chain :=
  {| eth_getBalance := λ _, inr balance;
     eth_getTransactionCount := λ _, inr count;
     eth_sendRawTransaction := λ _, send |}.

Definition empty_world : World := {| redis := ∅; db := []; trace := [] |}.

(** The cache holds the nonce [c] for Alice. *)
Definition world_with_nonce (c : Z) : World :=
  {| redis := {[ nonce_key alice_address := Py.str c ]}; db := []; trace := [] |}.

(** Bob has sent 50 to Alice, Alice 20 to Bob at a gas cost of 10; neither
    is confirmed. *)
Definition incoming : Pending :=
  {| hash := "0x01"; sender := bob_address; recipient := alice_address;
     amount := 50; gas_cost := 5; token_id := None; confirmed_at := None |}.

Definition outgoing : Pending :=
  {| hash := "0x02"; sender := alice_address; recipient := bob_address;
     amount := 20; gas_cost := 10; token_id := None; confirmed_at := None |}.

Definition ledger : list Pending := [incoming; outgoing].

(** Alice has one transfer of 0x80 pending, at a gas cost of 0x40. *)
Definition world_with_pending : World :=
  {| redis := ∅;
     db := store <$> [ {| hash := "0x03"; sender := alice_address;
                          recipient := bob_address; amount := 128; gas_cost := 64;
                          token_id := None; confirmed_at := None |} ];
     trace := [] |}.

(** A transfer to Bob, unsigned and signed by Alice. *)
Definition unsigned_transfer (n startgas v : Z) : Tx := make n 1 startgas bob_address v.

Definition transfer (n startgas v : Z) : Tx :=
  add_signature (unsigned_transfer n startgas v) alice_sig.

(** An anonymous [POST /tx] of [tx], with the extra members [more]. *)
Definition submission (tx : Tx) (more : gmap string json)
    : SendTransactionHandler.Request :=
  {| SendTransactionHandler.headers := None;
     SendTransactionHandler.body := <["tx" := JString (encode tx)]> more |}.

(** A [POST /tx/skeleton] body. *)
Definition skeleton_request (more : gmap string json) : gmap string json :=
  <["from" := JString alice_address]>
    (<["to" := JString bob_address]> (<["value" := JString "0x64"]> more)).

End Demo.

(** ** The registration handlers

    The four handlers below write two more tables.  They share nothing with
    the stores above, so they run on a state of their own. *)

(** [len(x)] of a request value: the items of a list, the characters of a
    string, the members of an object (as the [dict] holds them).  [None] stands
    for the [TypeError] of a value without length. *)
Definition py_len (x : json) : option nat :=
  match x with
  | JString s => Some (String.length s)
  | JArray items => Some (length items)
  | JObject members => Some (length members)
  | _ => None
  end.

(** The values [for a in x] and [*x] go through: the items of a list, the
    characters of a string, the keys of an object. *)
Definition py_iter (x : json) : list json :=
  match x with
  | JString s => (λ c, JString (String c EmptyString)) <$> list_ascii_of_string s
  | JArray items => items
  | JObject members => (λ m, JString (fst m)) <$> members
  | _ => []
  end.

(** Modelled from the spec: the schema of the two tables.
    [notification_registrations] holds [(token_id, eth_address)] pairs, unique
    on the pair; [push_notification_registrations] maps
    [(service, registration_id)], the conflict target of the upsert, to a
    [token_id]. *)
Record Registrations : Type := {
  notification_registrations : gset (string * string);
  push_notification_registrations : gmap (string * string) string
}.

(** [$k] of a statement executed with the positional arguments [args]. *)
Definition placeholder {A : Type} (args : list A) (k : nat) : option A :=
  match k with
  | O => None
  | S i => args !! i
  end.

(** [raise JSONHTTPError(400, ...)] with the slug every registration handler
    uses. *)
Definition bad_arguments : exn := http_error 400 "bad_arguments" "Bad Arguments".

(** ** class TransactionNotificationRegistrationHandler *)
Module TransactionNotificationRegistrationHandler.

(** Lines 264-268: every address is validated and [[token_id, address]] is
    appended to [insert_args]; [None] when an address does not validate. *)
Fixpoint collect `{External} (token_id : string) (addresses : list json)
    (insert_args : list string) : option (list string) :=
  match addresses with
  | [] => Some insert_args
  | address :: addresses =>
      match address_of address with
      | Some a => collect token_id addresses (insert_args ++ [token_id; a])
      | None => None
      end
  end.

(** Line 274: the [VALUES] list has one [($2i+1, $2i+2)] per element of
    [addresses]. *)
Definition values_placeholders (n : nat) : list (nat * nat) :=
  (λ i, (i * 2 + 1, i * 2 + 2)%nat) <$> seq 0 n.

(** The rows a [VALUES] list denotes under the arguments [args].  The driver
    refuses a statement whose placeholders and arguments differ in number, or
    one that names an argument that is not there. *)
Definition values_rows (values : list (nat * nat)) (args : list string)
    : option (list (string * string)) :=
  if bool_decide (length args = (2 * length values)%nat)
  then mapM (λ ij, t ← placeholder args (fst ij);
                   a ← placeholder args (snd ij);
                   Some (t, a)) values
  else None.

(** [INSERT INTO notification_registrations VALUES ... ON CONFLICT DO
    NOTHING]: the rows that are not there yet are added. *)
Definition insert_rows (rows : list (string * string)) (t : Registrations) : Registrations :=
  {| notification_registrations := notification_registrations t ∪ list_to_set rows;
     push_notification_registrations := push_notification_registrations t |}.

(** The handler answers with a status code and no body. *)
Definition post `{External} (headers : Headers) (payload : gmap string json)
    (t : Registrations) : (exn + Z) * Registrations :=
  match verify_request headers with
  | inl e => (inl e, t)
  | inr token_id =>
      match payload !! "addresses" with
      | None => (inl bad_arguments, t)
      | Some addresses =>
          match py_len addresses with
          | None => (inl TypeError, t)
          | Some O => (inl bad_arguments, t)
          | Some _ =>
              match collect token_id (py_iter addresses) [] with
              | None => (inl bad_arguments, t)
              | Some insert_args =>
                  let values := values_placeholders (length (py_iter addresses)) in
                  match values_rows values insert_args with
                  | None => (inl (LibraryError "arguments do not match the statement"), t)
                  | Some rows => (inr 204, insert_rows rows t)
                  end
              end
          end
      end
  end.

End TransactionNotificationRegistrationHandler.

(** ** class TransactionNotificationDeregistrationHandler *)
Module TransactionNotificationDeregistrationHandler.

(** Lines 293-295: every address is validated. *)
Definition validated `{External} (addresses : list json) : option (list string) :=
  mapM address_of addresses.

(** Line 301: the condition has one [eth_address = $i+2] per element of
    [addresses]. *)
Definition condition_placeholders (n : nat) : list nat :=
  (λ i, (i + 2)%nat) <$> seq 0 n.

(** The row [r] matches [token_id = $1 AND (eth_address = $k OR ...)] under
    the arguments [args]. *)
Definition matches (condition : list nat) (args : list string) (r : string * string) : Prop :=
  placeholder args 1 = Some (fst r)
  ∧ Exists (λ k, placeholder args k = Some (snd r)) condition.

#[global] Instance matches_dec condition args r : Decision (matches condition args r).
Proof. unfold matches. apply _. Defined.

(** [DELETE FROM notification_registrations WHERE ...]: the matching rows
    go. *)
Definition delete_rows (condition : list nat) (args : list string) (t : Registrations)
    : Registrations :=
  {| notification_registrations :=
       filter (λ r, ¬ matches condition args r) (notification_registrations t);
     push_notification_registrations := push_notification_registrations t |}.

Definition post `{External} (headers : Headers) (payload : gmap string json)
    (t : Registrations) : (exn + Z) * Registrations :=
  match verify_request headers with
  | inl e => (inl e, t)
  | inr token_id =>
      match payload !! "addresses" with
      | None => (inl bad_arguments, t)
      | Some addresses =>
          match py_len addresses with
          | None => (inl TypeError, t)
          | Some O => (inl bad_arguments, t)
          | Some _ =>
              match validated (py_iter addresses) with
              | None => (inl bad_arguments, t)
              | Some args =>
                  let condition := condition_placeholders (length (py_iter addresses)) in
                  if bool_decide (length (token_id :: args) = S (length condition))
                  then (inr 204, delete_rows condition (token_id :: args) t)
                  else (inl (LibraryError "arguments do not match the statement"), t)
              end
          end
      end
  end.

End TransactionNotificationDeregistrationHandler.

(** The two push-notification handlers pass [payload['registration_id']] to
    the database as it comes (line 318: no verification yet).  How the driver
    binds a request value to the column, or refuses it, is the parameter
    [text_param] of both. *)

(** ** class PNRegistrationHandler *)
Module PNRegistrationHandler.

(** [INSERT ... ON CONFLICT (service, registration_id) DO UPDATE SET
    token_id = $3]. *)
Definition upsert (service registration_id token_id : string) (t : Registrations)
    : Registrations :=
  {| notification_registrations := notification_registrations t;
     push_notification_registrations :=
       <[(service, registration_id) := token_id]> (push_notification_registrations t) |}.

Definition post `{External} (text_param : json → exn + string) (headers : Headers)
    (service : string) (payload : gmap string json) (t : Registrations)
    : (exn + Z) * Registrations :=
  match verify_request headers with
  | inl e => (inl e, t)
  | inr token_id =>
      match payload !! "registration_id" with
      | None => (inl bad_arguments, t)
      | Some registration_id =>
          match text_param registration_id with
          | inl e => (inl e, t)
          | inr registration_id => (inr 204, upsert service registration_id token_id t)
          end
      end
  end.

End PNRegistrationHandler.

(** ** class PNDeregistrationHandler *)
Module PNDeregistrationHandler.

(** [DELETE ... WHERE service = $1 AND registration_id = $2 AND
    token_id = $3]. *)
Definition delete_registration (service registration_id token_id : string)
    (t : Registrations) : Registrations :=
  {| notification_registrations := notification_registrations t;
     push_notification_registrations :=
       filter (λ kv, ¬ (fst kv = (service, registration_id) ∧ snd kv = token_id))
              (push_notification_registrations t) |}.

Definition post `{External} (text_param : json → exn + string) (headers : Headers)
    (service : string) (payload : gmap string json) (t : Registrations)
    : (exn + Z) * Registrations :=
  match verify_request headers with
  | inl e => (inl e, t)
  | inr token_id =>
      match payload !! "registration_id" with
      | None => (inl bad_arguments, t)
      | Some registration_id =>
          match text_param registration_id with
          | inl e => (inl e, t)
          | inr registration_id =>
              (inr 204, delete_registration service registration_id token_id t)
          end
      end
  end.

End PNDeregistrationHandler.

(** Sample data for the registration handlers. *)
Module DemoRegistrations.

(** The driver binds strings and refuses everything else. *)
Definition text_param (x : json) : exn + string :=
  match x with
  | JString s => inr s
  | _ => inl (LibraryError "expected str")
  end.

Definition empty : Registrations :=
  {| notification_registrations := ∅; push_notification_registrations := ∅ |}.

Definition addresses : json :=
  JArray [JString Demo.alice_address; JString Demo.bob_address].

(** Two clients registered for the same address. *)
Definition registered : Registrations :=
  {| notification_registrations :=
       {[ ("0xtoken", Demo.alice_address); ("0xother", Demo.alice_address) ]};
     push_notification_registrations := ∅ |}.

End DemoRegistrations.

(** * Properties *)

(** ** Python built-ins *)

Example str_1020 : Py.str 1020 = "1020". Proof. reflexivity. Qed.
Example str_negative : Py.str (-7) = "-7". Proof. reflexivity. Qed.
Example hex_1020 : Py.hex 1020 = "0x3fc". Proof. reflexivity. Qed.
Example hex_zero : Py.hex 0 = "0x0". Proof. reflexivity. Qed.
Example hex_negative : Py.hex (-255) = "-0xff". Proof. reflexivity. Qed.
Example int_spaces_groups : Py.int " 1_000 " = Some 1000. Proof. reflexivity. Qed.
Example int_signed : Py.int "-12" = Some (-12) ∧ Py.int "+12" = Some 12.
Proof. split; reflexivity. Qed.
Example int_rejects :
  Py.int "" = None ∧ Py.int "1__0" = None ∧ Py.int "12_" = None ∧ Py.int "0x10" = None
  ∧ Py.int "1 2" = None ∧ Py.int "--1" = None.
Proof. repeat split; reflexivity. Qed.

Section PyFacts.

Import Py.

Lemma digit_not_space a : is_digit a = true → is_space a = false.
Proof.
  unfold is_digit, is_space. generalize (N_of_ascii a). intros n Hn.
  apply andb_true_iff in Hn as [H1%N.leb_le H2%N.leb_le].
  apply orb_false_iff. split.
  - apply andb_false_iff. right. apply N.leb_gt. lia.
  - apply N.eqb_neq. lia.
Qed.

Lemma digit_not_sign a : is_digit a = true → Ascii.eqb a "-" = false ∧ Ascii.eqb a "+" = false.
Proof.
  intros Hd. split; apply Ascii.eqb_neq; intros ->; discriminate Hd.
Qed.

Lemma uint_digits (u : Decimal.uint) :
  all_digits (DecimalString.NilEmpty.string_of_uint u) = true.
Proof. induction u; simpl; auto. Qed.

Lemma lstrip_digits s : all_digits s = true → lstrip s = s.
Proof.
  destruct s as [|a r]; simpl; [done|].
  intros [Ha _]%andb_true_iff. by rewrite (digit_not_space a Ha).
Qed.

Lemma rstrip_digits s : all_digits s = true → rstrip s = s.
Proof.
  induction s as [|a r IH]; simpl; [done|].
  intros [Ha Hr]%andb_true_iff. rewrite (IH Hr).
  destruct r; [by rewrite (digit_not_space a Ha)|done].
Qed.

Lemma ungroup_digits b s :
  all_digits s = true → s ≠ EmptyString ∨ b = true → ungroup b s = Some s.
Proof.
  revert b. induction s as [|a r IH]; simpl; intros b Hs Hb.
  - destruct Hb as [? | ->]; done.
  - apply andb_true_iff in Hs as [Ha Hr]. rewrite Ha.
    rewrite (IH true Hr); [done|by right].
Qed.

Lemma digits_value_pos p :
  digits_value (DecimalString.NilZero.string_of_uint (Pos.to_uint p)) = Some (Z.pos p).
Proof.
  pose proof (Unsigned.to_uint_nonnil p) as Hnil.
  unfold digits_value. rewrite ungroup_digits.
  - simpl. rewrite (DecimalString.NilZero.usu _ Hnil). simpl.
    f_equal. exact (DecimalZ.of_to (Z.pos p)).
  - destruct (Pos.to_uint p) eqn:Hu; try apply uint_digits; done.
  - left. destruct (Pos.to_uint p); done.
Qed.

Lemma pos_text p :
  ∃ a r, DecimalString.NilZero.string_of_uint (Pos.to_uint p) = String a r
         ∧ is_digit a = true ∧ all_digits r = true.
Proof.
  pose proof (Unsigned.to_uint_nonnil p) as Hnil.
  pose proof (uint_digits (Pos.to_uint p)) as Hd.
  destruct (Pos.to_uint p); try done; simpl in *; eauto.
Qed.

(** [int(str(n)) = n]: what the handlers store as text reads back. *)
Lemma Py_int_str (n : Z) : int (str n) = Some n.
Proof.
  unfold int, str. destruct n as [|p|p]; [done| |]; simpl.
  - pose proof (digits_value_pos p) as Hv.
    destruct (pos_text p) as (a & r & Hs & Ha & Hr). rewrite Hs in *.
    assert (all_digits (String a r) = true) as Hall by (simpl; by rewrite Ha, Hr).
    rewrite (lstrip_digits _ Hall), (rstrip_digits _ Hall).
    destruct (digit_not_sign a Ha) as [-> ->]. done.
  - pose proof (digits_value_pos p) as Hv.
    destruct (pos_text p) as (a & r & Hs & Ha & Hr). rewrite Hs in *.
    assert (all_digits (String a r) = true) as Hall by (simpl; by rewrite Ha, Hr).
    change (rstrip (String "-" (String a r)))
      with (match rstrip (String a r) with
            | EmptyString => String "-" EmptyString
            | r' => String "-" r'
            end).
    rewrite (rstrip_digits _ Hall). simpl. by rewrite Hv.
Qed.

Lemma Py_str_truthy (n : Z) : truthy (str n) = true.
Proof.
  unfold str. destruct n as [|p|p]; [done| |done]. simpl.
  by destruct (pos_text p) as (a & r & -> & _).
Qed.

End PyFacts.

(** ** Running the monad *)

Section Monad.

Context {A B : Type}.

Lemma run_bind (m : M A) (f : A → M B) (w : World) :
  (m ≫= f) w = match m w with
               | (inr x, w') => f x w'
               | (inl e, w') => (inl e, w')
               end.
Proof. reflexivity. Qed.

Lemma run_bind_ok (m : M A) (f : A → M B) (w w' : World) (x : A) :
  m w = (inr x, w') → (m ≫= f) w = f x w'.
Proof. intros Hm. by rewrite run_bind, Hm. Qed.

Lemma run_bind_raise (m : M A) (f : A → M B) (w w' : World) (e : exn) :
  m w = (inl e, w') → (m ≫= f) w = (inl e, w').
Proof. intros Hm. by rewrite run_bind, Hm. Qed.

Lemma run_bind_ret (x : A) (f : A → M B) (w : World) :
  (mret x ≫= f) w = f x w.
Proof. reflexivity. Qed.

Lemma run_bind_lift (x : A) (f : A → M B) (w : World) :
  (lift (inr x) ≫= f) w = f x w.
Proof. reflexivity. Qed.

Lemma run_bind_lift_raise (e : exn) (f : A → M B) (w : World) :
  (lift (inl e) ≫= f) w = (inl e, w).
Proof. reflexivity. Qed.

Lemma add_events_nil (w : World) : add_events [] w = w.
Proof. destruct w. unfold add_events. simpl. by rewrite app_nil_r. Qed.

Lemma add_events_app (l1 l2 : list Event) (w : World) :
  add_events l2 (add_events l1 w) = add_events (l1 ++ l2) w.
Proof. unfold add_events. simpl. by rewrite app_assoc. Qed.

Lemma record_add_events (e : Event) (w : World) :
  record_event e w = add_events [e] w.
Proof. reflexivity. Qed.

Lemma observes_ret (x : A) : observes (mret x : M A).
Proof. intros w. exists []. by rewrite add_events_nil. Qed.

Lemma observes_raise (e : exn) : observes (raise e : M A).
Proof. intros w. exists []. by rewrite add_events_nil. Qed.

Lemma observes_lift (r : exn + A) : observes (lift r).
Proof. intros w. exists []. by rewrite add_events_nil. Qed.

Lemma observes_gets (f : World → A) : observes (gets f).
Proof. intros w. exists []. by rewrite add_events_nil. Qed.

Lemma observes_rpc (answer : json + A) : observes (rpc answer).
Proof. destruct answer; [apply observes_raise|apply observes_ret]. Qed.

Lemma observes_or_value_error (o : option A) : observes (or_value_error o).
Proof. destruct o; [apply observes_ret|apply observes_raise]. Qed.

Lemma observes_require (o : option A) (e : exn) : observes (require o e).
Proof. destruct o; [apply observes_ret|apply observes_raise]. Qed.

Lemma observes_bind (m : M A) (f : A → M B) :
  observes m → (∀ x, observes (f x)) → observes (m ≫= f).
Proof.
  intros Hm Hf w. rewrite run_bind.
  destruct (Hm w) as (evs & Hw & Hq).
  destruct (m w) as [[e|x] w1]; simpl in Hw; subst w1; [by eauto|].
  destruct (Hf x (add_events evs w)) as (evs' & Hw' & Hq').
  exists (evs ++ evs'). rewrite Hw', add_events_app.
  split; [done|]. by apply Forall_app.
Qed.

End Monad.

Lemma run_bind_assoc {A B C : Type} (m : M A) (f : A → M B) (g : B → M C) (w : World) :
  ((m ≫= f) ≫= g) w = (m ≫= λ x, f x ≫= g) w.
Proof. rewrite !run_bind. by destruct (m w) as [[e|x] w']. Qed.

Lemma observes_emit (e : Event) : is_read e = true → observes (emit e).
Proof. intros He w. exists [e]. split; [done|]. by constructor. Qed.

(** One step of a run: the first action of a sequence returns. *)
Ltac step H := rewrite ?run_bind_assoc; rewrite (run_bind_ok _ _ _ _ _ H).

Lemma run_emit (e : Event) (l : list Event) (w : World) :
  emit e (add_events l w) = (inr (), add_events (l ++ [e]) w).
Proof. unfold emit, modify. by rewrite record_add_events, add_events_app. Qed.

Lemma run_redis_get (key : string) (l : list Event) (w : World) :
  redis_get key (add_events l w) = (inr (redis w !! key), add_events (l ++ [RedisGet key]) w).
Proof. unfold redis_get. by step (run_emit (RedisGet key) l w). Qed.

Lemma run_fetch_pending_sent (a : string) (l : list Event) (w : World) :
  fetch_pending_sent a (add_events l w)
  = (inr (filter (pending_from a) (db w)), add_events (l ++ [DbFetchSent a]) w).
Proof. unfold fetch_pending_sent. by step (run_emit (DbFetchSent a) l w). Qed.

Lemma run_fetch_pending_received (a : string) (l : list Event) (w : World) :
  fetch_pending_received a (add_events l w)
  = (inr (filter (pending_to a) (db w)), add_events (l ++ [DbFetchReceived a]) w).
Proof. unfold fetch_pending_received. by step (run_emit (DbFetchReceived a) l w). Qed.

Lemma run_redis_set (key : string) (n : Z) (w : World) :
  redis_set key n w
  = (inr (), {| redis := <[key := Py.str n]> (redis w); db := db w;
                trace := trace w ++ [RedisSet key (Py.str n)] |}).
Proof. reflexivity. Qed.

Lemma run_insert_transaction (r : Row) (w : World) :
  insert_transaction r w
  = if bool_decide (Exists (λ r', transaction_hash r' = transaction_hash r) (db w))
    then (inl UniqueViolationError, add_events [DbInsert r] w)
    else (inr (), {| redis := redis w; db := db w ++ [r];
                     trace := trace w ++ [DbInsert r; DbCommit] |}).
Proof.
  unfold insert_transaction. rewrite <- (add_events_nil w) at 1.
  step (run_emit (DbInsert r) [] w). unfold gets. rewrite run_bind. simpl.
  case_bool_decide; [done|].
  unfold modify, emit, modify. rewrite run_bind. simpl.
  unfold record_event, set_db. simpl. by rewrite <- app_assoc.
Qed.


(** Unfolds the monad altogether, for case analyses. *)
Ltac mcompute :=
  unfold mbind, M_bind, mret, M_ret, raise, lift, emit, modify, gets,
    or_value_error, rpc, require in *;
  simpl in *.

Ltac mnorm :=
  repeat first [rewrite run_bind_assoc | rewrite run_bind_ret | rewrite run_bind_lift
               | rewrite run_bind_lift_raise];
  cbv beta.

Create HintDb observes.

#[local] Hint Resolve observes_ret observes_raise observes_lift observes_gets
  observes_rpc observes_or_value_error observes_require observes_emit : observes.

Ltac observe :=
  repeat first
    [ apply observes_bind; [|intros ?]
    | progress eauto with observes
    | match goal with
      | |- observes (match ?x with _ => _ end) => destruct x
      | |- observes (let '(_, _) := ?x in _) => destruct x
      end ].

(** ** The balance oracle *)

Section Balances.

Lemma filter_store (P : Row → Prop) `{∀ r, Decision (P r)} (rows : list Pending) :
  filter P (store <$> rows) = store <$> filter (λ p, P (store p)) rows.
Proof.
  induction rows as [|p rows IH]; [done|].
  rewrite fmap_cons, !filter_cons, IH. by case_decide.
Qed.

Lemma py_sum_sent (rows : list Pending) (acc : Z) :
  py_sum (λ p, v ← Py.int (value p); g ← Py.int (estimated_gas_cost p); Some (v + g))
         acc (store <$> rows)
  = Some (acc + total (λ p, amount p + gas_cost p) rows).
Proof.
  revert acc. induction rows as [|p rows IH]; intros acc; simpl.
  - f_equal. lia.
  - rewrite !Py_int_str. simpl. rewrite IH. f_equal. lia.
Qed.

Lemma py_sum_received (rows : list Pending) (acc : Z) :
  py_sum (λ p, Py.int (value p)) acc (store <$> rows)
  = Some (acc + total amount rows).
Proof.
  revert acc. induction rows as [|p rows IH]; intros acc; simpl.
  - f_equal. lia.
  - rewrite Py_int_str. simpl. rewrite IH. f_equal. lia.
Qed.

Lemma sum_or_zero (f : Row → option Z) (l : list Row) (t : Z) :
  py_sum f 0 l = Some t →
  match l with
  | [] => mret 0
  | _ => or_value_error (py_sum f 0 l)
  end = (mret t : M Z).
Proof.
  intros Ht. destruct l; [by injection Ht as <-|]. by rewrite Ht.
Qed.

Lemma get_balances_observes (eth : Chain) (a : string) (ignore : bool) :
  observes (BalanceMixin.get_balances eth a ignore).
Proof.
  unfold BalanceMixin.get_balances, fetch_pending_sent, fetch_pending_received.
  observe.
Qed.

(** What [get_balances] does on a ledger whose amounts are numbers. *)
Lemma get_balances_run (eth : Chain) (a : string) (C : Z) (ignore : bool)
    (rows : list Pending) (l : list Event) (w : World) :
  eth_getBalance eth a = inr C →
  db w = store <$> rows →
  BalanceMixin.get_balances eth a ignore (add_events l w)
  = (inr (C, C + (if ignore then 0 else pending_in a rows) - pending_out a rows),
     add_events (l ++ [EthGetBalance a; DbFetchSent a]
                   ++ (if ignore then [] else [DbFetchReceived a])) w).
Proof.
  intros HC Hdb. unfold BalanceMixin.get_balances.
  step (run_emit (EthGetBalance a) l w). rewrite HC. simpl rpc. mnorm.
  step (run_fetch_pending_sent a (l ++ [EthGetBalance a]) w).
  rewrite Hdb, !filter_store.
  rewrite (sum_or_zero _ _ (pending_out a rows)) by apply py_sum_sent.
  mnorm. rewrite <- !app_assoc. simpl app. destruct ignore.
  - by mnorm.
  - step (run_fetch_pending_received a (l ++ [EthGetBalance a; DbFetchSent a]) w).
    rewrite Hdb, !filter_store.
    rewrite (sum_or_zero _ _ (pending_in a rows)) by apply py_sum_received.
    mnorm. by rewrite <- !app_assoc.
Qed.

End Balances.

(** ** The nonce oracle *)

Section Nonce.

Lemma reconciled_nonce_run (eth : Chain) (a : string) (cached : option Z) (n : Z)
    (l : list Event) (w : World) :
  cache_holds w a cached →
  eth_getTransactionCount eth a = inr n →
  reconciled_nonce eth a (add_events l w)
  = (inr (nonce_floor cached n),
     add_events (l ++ [RedisGet (nonce_key a); EthGetTransactionCount a]) w).
Proof.
  unfold cache_holds. intros Hc Hn. unfold reconciled_nonce.
  step (run_redis_get (nonce_key a) l w). rewrite Hc.
  destruct cached as [c|]; simpl.
  - rewrite Py_str_truthy, Py_int_str. simpl. mnorm.
    step (run_emit (EthGetTransactionCount a) (l ++ [RedisGet (nonce_key a)]) w).
    rewrite Hn. simpl. mnorm. rewrite <- app_assoc. simpl.
    destruct (Z.gtb_spec n c); unfold mret, M_ret; do 2 f_equal; lia.
  - mnorm.
    step (run_emit (EthGetTransactionCount a) (l ++ [RedisGet (nonce_key a)]) w).
    rewrite Hn. simpl. mnorm. by rewrite <- app_assoc.
Qed.

Lemma reconciled_nonce_observes (eth : Chain) (a : string) :
  observes (reconciled_nonce eth a).
Proof. unfold reconciled_nonce, redis_get. observe. Qed.

End Nonce.

(** ** The submission pipeline *)

Lemma filter_none {A : Type} (P : A → Prop) `{∀ x, Decision (P x)} (l : list A) :
  ¬ Exists P l → filter P l = [].
Proof.
  induction l as [|x l IH]; [done|]. intros Hn.
  rewrite filter_cons_False by (intros Hx; apply Hn; by left).
  apply IH. intros Hl. apply Hn. by right.
Qed.

Section Submission.

Context `{E : External}.

Import SendTransactionHandler.

Lemma check_funds_observes (eth : Chain) (a : string) (tx : Transaction) :
  observes (check_funds eth a tx).
Proof.
  unfold check_funds. apply observes_bind; [apply get_balances_observes|].
  intros [nb b]. observe.
Qed.

Lemma check_nonce_observes (eth : Chain) (a : string) (tx : Transaction) :
  observes (check_nonce eth a tx).
Proof.
  unfold check_nonce. apply observes_bind; [apply reconciled_nonce_observes|].
  intros c. observe.
Qed.

(** Once a submission is settled, what remains is the two checks and the
    broadcast. *)
Lemma post_settled (eth : Chain) (request : Request) (sender_token_id : option string)
    (tx : Transaction) (from_address : string) (w : World) :
  settled request sender_token_id tx from_address →
  post eth request w
  = (_ ← check_funds eth from_address tx;
     _ ← check_nonce eth from_address tx;
     send_and_record eth sender_token_id tx from_address (data_encoder (tx_to tx))) w.
Proof.
  intros (Ha & (tx0 & Hd & Hr) & sender & Hs & ->).
  unfold post, submit. rewrite Ha, Hd. mnorm. rewrite Hr. mnorm. rewrite Hs. by mnorm.
Qed.

(** A submission that is not settled stops where it fails, having called
    nothing. *)
Lemma post_unsettled (eth : Chain) (request : Request) (w : World) :
  (∃ sender_token_id tx from_address, settled request sender_token_id tx from_address)
  ∨ ∃ e, post eth request w = (inl e, w).
Proof.
  unfold post, submit, settled.
  destruct (authenticate (headers request)) as [e|token]; [right; exists e; by mnorm|].
  destruct (decode (body request)) as [e|tx0]; [right; exists e; by mnorm|].
  destruct (reconcile_signature (body request) tx0) as [e|tx] eqn:Hr.
  { right. exists e. mnorm. rewrite Hr. by mnorm. }
  destruct (tx_sender tx) as [e|sender] eqn:Hs.
  - right. exists e. mnorm. rewrite Hr. mnorm. rewrite Hs. by mnorm.
  - left. exists token, tx, (data_encoder sender). eauto 10.
Qed.

Lemma broadcast_failure (eth : Chain) (sender_token_id : option string) (tx : Transaction)
    (a b : string) (err : json) (l : list Event) (w : World) :
  eth_sendRawTransaction eth (encode_transaction tx) = inl err →
  send_and_record eth sender_token_id tx a b (add_events l w)
  = (inl unexpected_error,
     add_events (l ++ [EthSendRawTransaction (encode_transaction tx) (inl err)]) w).
Proof.
  intros Hs. unfold send_and_record, broadcast. rewrite Hs. mnorm.
  step (run_emit (EthSendRawTransaction (encode_transaction tx) (inl err)) l w).
  reflexivity.
Qed.

Lemma broadcast_success (eth : Chain) (sender_token_id : option string) (tx : Transaction)
    (a b h : string) (l : list Event) (w : World) :
  eth_sendRawTransaction eth (encode_transaction tx) = inr h →
  let row := ledger_row h a b tx sender_token_id in
  let cache := <[nonce_key a := Py.str (tx_nonce tx + 1)]> (redis w) in
  send_and_record eth sender_token_id tx a b (add_events l w)
  = if bool_decide (Exists (λ r, transaction_hash r = h) (db w))
    then (inl UniqueViolationError,
          {| redis := cache; db := db w;
             trace := trace w ++ l ++ take 3 (commit_events tx h a row) |})
    else (inr {| tx_hash := h |},
          {| redis := cache; db := db w ++ [row];
             trace := trace w ++ l ++ commit_events tx h a row |}).
Proof.
  intros Hs row cache. unfold send_and_record, broadcast. rewrite Hs. mnorm.
  step (run_emit (EthSendRawTransaction (encode_transaction tx) (inr h)) l w).
  mnorm. step (run_redis_set (nonce_key a) (tx_nonce tx + 1)
                 (add_events (l ++ [EthSendRawTransaction (encode_transaction tx) (inr h)]) w)).
  rewrite run_bind, run_insert_transaction. subst row cache. simpl.
  case_bool_decide.
  - unfold add_events. simpl. by rewrite <- !app_assoc.
  - unfold mret, M_ret. simpl. by rewrite <- !app_assoc.
Qed.

Lemma observes_run {A : Type} (m : M A) (w w' : World) (r : exn + A) :
  observes m → m w = (r, w') →
  ∃ evs, w' = add_events evs w ∧ Forall (λ e, is_read e = true) evs.
Proof. intros Hm Hr. destruct (Hm w) as (evs & Hw & Hq). rewrite Hr in Hw. eauto. Qed.

Lemma reconciled_nonce_errors (eth : Chain) (a : string) (w w' : World) (e : exn) :
  reconciled_nonce eth a w = (inl e, w') →
  e = ValueError ∨ e = TypeError ∨ ∃ j, e = JsonRPCError j.
Proof.
  unfold reconciled_nonce, redis_get. mcompute.
  destruct (redis w !! nonce_key a) as [s|]; simpl;
    [destruct (Py.truthy s); simpl; [destruct (Py.int s); simpl|]|];
    try (intros [= <- _]; by auto);
    destruct (eth_getTransactionCount eth a); simpl;
    try (intros [= <- _]; by eauto);
    try case_match; by intros [=].
Qed.

Lemma check_nonce_errors (eth : Chain) (a : string) (tx : Transaction)
    (w w' : World) (e : exn) :
  check_nonce eth a tx w = (inl e, w') →
  e = ValueError ∨ e = TypeError ∨ (∃ j, e = JsonRPCError j)
  ∨ e = http_error 400 "invalid_nonce" "Provided nonce is too low".
Proof.
  unfold check_nonce. rewrite run_bind.
  destruct (reconciled_nonce eth a w) as [[e'|c] w1] eqn:Hr.
  - intros [= <- _]. apply reconciled_nonce_errors in Hr.
    destruct Hr as [-> | [-> | [j ->]]]; eauto 6.
  - case_match; intros [= <- _]. by auto 6.
Qed.

Lemma send_and_record_errors (eth : Chain) (sender_token_id : option string)
    (tx : Transaction) (a b : string) (w w' : World) (e : exn) :
  send_and_record eth sender_token_id tx a b w = (inl e, w') →
  e = unexpected_error ∨ e = UniqueViolationError.
Proof.
  rewrite <- (add_events_nil w).
  destruct (eth_sendRawTransaction eth (encode_transaction tx)) as [err|h] eqn:Hs.
  - rewrite (broadcast_failure _ _ _ _ _ _ _ _ Hs). intros [= <- _]. by left.
  - rewrite (broadcast_success _ _ _ _ _ _ _ _ Hs). case_bool_decide; intros [=]. by right.
Qed.

(** Every run of the handler: it stops before the broadcast having only
    read; or the broadcast fails; or the broadcast succeeds, the nonce is
    cached, and the insert either hits a known hash or adds the row. *)
Lemma post_outcomes (eth : Chain) (request : Request) (w : World) :
  (∃ e reads, Forall (λ e, is_read e = true) reads
              ∧ post eth request w = (inl e, add_events reads w))
  ∨ ∃ sender_token_id tx from_address reads,
      settled request sender_token_id tx from_address
      ∧ Forall (λ e, is_read e = true) reads
      ∧ ((∃ err, eth_sendRawTransaction eth (encode_transaction tx) = inl err
                 ∧ post eth request w
                   = (inl unexpected_error,
                      add_events
                        (reads ++ [EthSendRawTransaction (encode_transaction tx) (inl err)])
                        w))
         ∨ ∃ h, eth_sendRawTransaction eth (encode_transaction tx) = inr h
                ∧ let row := ledger_row h from_address (data_encoder (tx_to tx)) tx
                               sender_token_id in
                  let cache := <[nonce_key from_address := Py.str (tx_nonce tx + 1)]>
                                 (redis w) in
                  post eth request w
                  = if bool_decide (Exists (λ r, transaction_hash r = h) (db w))
                    then (inl UniqueViolationError,
                          {| redis := cache; db := db w;
                             trace := trace w ++ reads
                                      ++ take 3 (commit_events tx h from_address row) |})
                    else (inr {| tx_hash := h |},
                          {| redis := cache; db := db w ++ [row];
                             trace := trace w ++ reads
                                      ++ commit_events tx h from_address row |})).
Proof.
  destruct (post_unsettled eth request w) as [(token & tx & a & Hset)|[e He]].
  2:{ left. exists e, []. by rewrite add_events_nil. }
  rewrite (post_settled eth _ _ _ _ w Hset).
  destruct (check_funds eth a tx w) as [r1 w1] eqn:Hf.
  destruct (observes_run _ _ _ _ (check_funds_observes eth a tx) Hf) as (evs1 & -> & Hq1).
  destruct r1 as [e|[]]; [left; exists e, evs1; split; [done|]; by rewrite run_bind, Hf|].
  step Hf.
  destruct (check_nonce eth a tx (add_events evs1 w)) as [r2 w2] eqn:Hn.
  destruct (observes_run _ _ _ _ (check_nonce_observes eth a tx) Hn) as (evs2 & -> & Hq2).
  rewrite add_events_app in *.
  destruct r2 as [e|[]].
  { left. exists e, (evs1 ++ evs2). split; [by apply Forall_app|]. by rewrite run_bind, Hn. }
  step Hn. right. exists token, tx, a, (evs1 ++ evs2).
  split; [done|]. split; [by apply Forall_app|].
  destruct (eth_sendRawTransaction eth (encode_transaction tx)) as [err|h] eqn:Hs.
  - left. exists err. split; [done|]. by apply broadcast_failure.
  - right. exists h. split; [done|]. by apply broadcast_success.
Qed.

End Submission.

(** C1 (balance identity).  With the node reporting balance [C] for [A] and
    the ledger holding the rows [rows], [get_balances(A, False)] returns
    [(C, C + Σ value of the unconfirmed rows to A − Σ (value +
    estimated_gas_cost) of the unconfirmed rows from A)], and
    [get_balances(A, True)] returns [(C, C − Σ (value + estimated_gas_cost) of
    the unconfirmed rows from A)], over the integers.  The call only reads:
    the node's balance, the rows sent and, unless ignored, the rows
    received. *)
Theorem get_balances_identity (eth : Chain) (A : string) (C : Z)
    (cache : gmap string string) (rows : list Pending) (calls : list Event) :
  eth_getBalance eth A = inr C →
  let w := {| redis := cache; db := store <$> rows; trace := calls |} in
  BalanceMixin.get_balances eth A false w
  = (inr (C, C + pending_in A rows - pending_out A rows),
     add_events [EthGetBalance A; DbFetchSent A; DbFetchReceived A] w)
  ∧ BalanceMixin.get_balances eth A true w
    = (inr (C, C - pending_out A rows),
       add_events [EthGetBalance A; DbFetchSent A] w).
Proof.
  intros HC w. rewrite <- (add_events_nil w) at 1 3.
  rewrite !(get_balances_run eth A C _ rows [] w HC eq_refl). by rewrite Z.add_0_r.
Qed.

Lemma get_balances_identity_witness :
  BalanceMixin.get_balances (Demo.node 1000 7 (inl JNull)) (Demo.hex_bytes Demo.alice) false
    {| redis := ∅; db := store <$> Demo.ledger; trace := [] |}
  = (inr (1000, 1000 + pending_in (Demo.hex_bytes Demo.alice) Demo.ledger
                - pending_out (Demo.hex_bytes Demo.alice) Demo.ledger),
     add_events [EthGetBalance (Demo.hex_bytes Demo.alice);
                 DbFetchSent (Demo.hex_bytes Demo.alice);
                 DbFetchReceived (Demo.hex_bytes Demo.alice)]
       {| redis := ∅; db := store <$> Demo.ledger; trace := [] |})
  ∧ BalanceMixin.get_balances (Demo.node 1000 7 (inl JNull)) (Demo.hex_bytes Demo.alice) true
      {| redis := ∅; db := store <$> Demo.ledger; trace := [] |}
    = (inr (1000, 1000 - pending_out (Demo.hex_bytes Demo.alice) Demo.ledger),
       add_events [EthGetBalance (Demo.hex_bytes Demo.alice);
                   DbFetchSent (Demo.hex_bytes Demo.alice)]
         {| redis := ∅; db := store <$> Demo.ledger; trace := [] |}).
Proof.
  exact (get_balances_identity (Demo.node 1000 7 (inl JNull)) (Demo.hex_bytes Demo.alice)
           1000 ∅ Demo.ledger [] eq_refl).
Defined.


(** C3 (nonce floor).  For a submission that reaches the nonce check, with
    the cache entry of the sender absent or holding a nonce and the node
    reporting the transaction count [n]: the handler fails with
    [invalid_nonce] (400) exactly when [tx.nonce] is below
    [floor = max(cached, n)], the floor being [n] when the cache has no entry;
    and every [tx.nonce ≥ floor], however far above, passes the check. *)
Theorem nonce_check_floor `{E : External} (eth : Chain)
    (request : SendTransactionHandler.Request) (sender_token_id : option string)
    (tx : Transaction) (from_address : string) (w w1 : World)
    (cached : option Z) (n : Z) :
  settled request sender_token_id tx from_address →
  SendTransactionHandler.check_funds eth from_address tx w = (inr (), w1) →
  cache_holds w from_address cached →
  eth_getTransactionCount eth from_address = inr n →
  (fails_with (SendTransactionHandler.post eth request w) 400 "invalid_nonce"
   ↔ tx_nonce tx < nonce_floor cached n)
  ∧ (nonce_floor cached n ≤ tx_nonce tx →
     SendTransactionHandler.check_nonce eth from_address tx w1
     = (inr (), add_events [RedisGet (nonce_key from_address);
                            EthGetTransactionCount from_address] w1)).
Proof.
  intros Hset Hf Hc Hn.
  destruct (observes_run _ _ _ _ (check_funds_observes eth from_address tx) Hf)
    as (evs & -> & _).
  assert (SendTransactionHandler.check_nonce eth from_address tx (add_events evs w)
          = if tx_nonce tx <? nonce_floor cached n
            then (inl (http_error 400 "invalid_nonce" "Provided nonce is too low"),
                  add_events (evs ++ [RedisGet (nonce_key from_address);
                                      EthGetTransactionCount from_address]) w)
            else (inr (), add_events (evs ++ [RedisGet (nonce_key from_address);
                                              EthGetTransactionCount from_address]) w))
    as Hcheck.
  { unfold SendTransactionHandler.check_nonce.
    step (reconciled_nonce_run eth from_address cached n evs w Hc Hn).
    by case_match. }
  split; [|intros Hle; rewrite Hcheck, add_events_app;
           by destruct (Z.ltb_spec (tx_nonce tx) (nonce_floor cached n)); [lia|]].
  rewrite (post_settled eth _ _ _ _ w Hset). step Hf. rewrite run_bind, Hcheck.
  destruct (Z.ltb_spec (tx_nonce tx) (nonce_floor cached n)) as [Hlt|Hge].
  - split; [done|]. intros _. by eexists.
  - split; [|lia]. intros [message Hfail]. simpl in Hfail.
    destruct (SendTransactionHandler.send_and_record _ _ _ _ _ _) as [[e|r] w'] eqn:Hsend;
      [|done].
    apply send_and_record_errors in Hsend. simpl in Hfail.
    destruct Hsend as [-> | ->]; discriminate Hfail.
Qed.

(** C4 (balance admissibility).  For a submission that reaches the balance
    check, with [get_balances(from, ignore_pending_recieved=True)] returning
    the effective balance [effective]: the handler fails with
    [insufficient_funds] (400) exactly when
    [effective < tx.value + tx.startgas * tx.gasprice]. *)
Theorem funds_check_admissibility `{E : External} (eth : Chain)
    (request : SendTransactionHandler.Request) (sender_token_id : option string)
    (tx : Transaction) (from_address : string) (w w1 : World)
    (network_balance effective : Z) :
  settled request sender_token_id tx from_address →
  BalanceMixin.get_balances eth from_address true w
    = (inr (network_balance, effective), w1) →
  fails_with (SendTransactionHandler.post eth request w) 400 "insufficient_funds"
  ↔ effective < tx_value tx + tx_startgas tx * tx_gasprice tx.
Proof.
  intros Hset Hb. rewrite (post_settled eth _ _ _ _ w Hset).
  unfold SendTransactionHandler.check_funds. step Hb.
  destruct (Z.ltb_spec effective (tx_value tx + tx_startgas tx * tx_gasprice tx))
    as [Hlt|Hge].
  - split; [done|]. intros _. by eexists.
  - split; [|lia]. unfold fails_with. cbv iota. mnorm. rewrite run_bind.
    intros [message Hfail]. revert Hfail.
    destruct (SendTransactionHandler.check_nonce _ _ _ _) as [[e|[]] w2] eqn:Hn; simpl.
    + apply check_nonce_errors in Hn.
      destruct Hn as [-> | [-> | [[j ->] | ->]]]; discriminate.
    + destruct (SendTransactionHandler.send_and_record _ _ _ _ _ _) as [[e|r] w'] eqn:Hsend;
        [|done].
      apply send_and_record_errors in Hsend. simpl.
      destruct Hsend as [-> | ->]; discriminate.
Qed.

(** C2 (submission, happy path).  When [POST /tx] answers [{tx_hash: h}]:
    the submission was settled to a transaction [tx] of sender [from], the
    node returned [h] for it, the ledger has gained exactly the row
    [(h, from, to, str(tx.value), str(tx.startgas * tx.gasprice),
    sender_token_id)] and holds no other row for [h], the cache entry
    [nonce:from] holds [tx.nonce + 1], and after the reads the calls were the
    broadcast, the cache write, the insert and the commit, in this order. *)
Theorem post_success_commits `{E : External} (eth : Chain)
    (request : SendTransactionHandler.Request) (w w' : World) (h : string) :
  SendTransactionHandler.post eth request w
    = (inr {| SendTransactionHandler.tx_hash := h |}, w') →
  ∃ sender_token_id tx from_address reads,
    settled request sender_token_id tx from_address
    ∧ eth_sendRawTransaction eth (encode_transaction tx) = inr h
    ∧ let row := ledger_row h from_address (data_encoder (tx_to tx)) tx sender_token_id in
      db w' = db w ++ [row]
      ∧ filter (λ r, transaction_hash r = h) (db w') = [row]
      ∧ redis w' = <[nonce_key from_address := Py.str (tx_nonce tx + 1)]> (redis w)
      ∧ cache_holds w' from_address (Some (tx_nonce tx + 1))
      ∧ Forall (λ e, is_read e = true) reads
      ∧ trace w' = trace w ++ reads
                   ++ [ EthSendRawTransaction (encode_transaction tx) (inr h);
                        RedisSet (nonce_key from_address) (Py.str (tx_nonce tx + 1));
                        DbInsert row;
                        DbCommit ].
Proof.
  intros Hpost.
  destruct (post_outcomes eth request w)
    as [(e & reads & _ & He)|(token & tx & a & reads & Hset & Hq & [(err & _ & He)|(h' & Hs & He)])];
    [congruence|congruence|].
  simpl in He. rewrite Hpost in He. case_bool_decide as Hdup; [done|].
  injection He as -> ->. exists token, tx, a, reads.
  split; [done|]. split; [done|]. simpl. split; [done|]. split.
  - rewrite filter_app, filter_cons_True, filter_nil by done.
    by rewrite (filter_none _ (db w) Hdup).
  - split; [done|]. split; [|done]. unfold cache_holds. simpl. by rewrite lookup_insert_eq.
Qed.

Lemma read_not_write (evs : list Event) :
  Forall (λ e, is_read e = true) evs →
  Forall (λ e, is_write e = false) evs ∧ ∀ key val, RedisSet key val ∉ evs.
Proof.
  intros Hq. split.
  - eapply Forall_impl; [exact Hq|]. by intros [].
  - intros key val Hin. by apply (proj1 (Forall_forall _ _) Hq) in Hin.
Qed.

(** C9 (errors write nothing).  Whatever the request, when [POST /tx] ends
    in a [JSONHTTPError] (a 400 of any slug or the 500 [unexpected_error]) the
    nonce cache and the ledger are as before and no write was attempted; and
    in every run a cache write, if there is one, sets [nonce:from] to
    [tx.nonce + 1] for the settled transaction, comes right after the
    broadcast the node answered with a hash, and is the only one. *)
Theorem post_error_leaves_stores `{E : External} (eth : Chain)
    (request : SendTransactionHandler.Request) (w : World) :
  ∃ evs,
    trace (snd (SendTransactionHandler.post eth request w)) = trace w ++ evs
    ∧ (∀ status errors,
         fst (SendTransactionHandler.post eth request w) = inl (JSONHTTPError status errors) →
         redis (snd (SendTransactionHandler.post eth request w)) = redis w
         ∧ db (snd (SendTransactionHandler.post eth request w)) = db w
         ∧ Forall (λ e, is_write e = false) evs)
    ∧ (∀ key val, RedisSet key val ∈ evs →
         ∃ sender_token_id tx from_address h reads rest,
           settled request sender_token_id tx from_address
           ∧ key = nonce_key from_address
           ∧ val = Py.str (tx_nonce tx + 1)
           ∧ evs = reads
                   ++ EthSendRawTransaction (encode_transaction tx) (inr h)
                   :: RedisSet key val :: rest
           ∧ Forall (λ e, is_read e = true) reads
           ∧ Forall (λ e, is_cache_write e = false) rest).
Proof.
  destruct (post_outcomes eth request w)
    as [(e & reads & Hq & ->)
       |(token & tx & a & reads & Hset & Hq & [(err & Hs & ->)|(h & Hs & ->)])];
    destruct (read_not_write reads Hq) as [Hnw Hnc].
  - exists reads. split; [done|]. split; [by intros _ _ _; repeat split|].
    intros key val Hin. destruct (Hnc _ _ Hin).
  - exists (reads ++ [EthSendRawTransaction (encode_transaction tx) (inl err)]).
    split; [done|]. split.
    + intros _ _ _. split; [done|]. split; [done|].
      apply Forall_app. split; [done|]. by repeat constructor.
    + intros key val [Hin|Hin]%elem_of_app; [destruct (Hnc _ _ Hin)|].
      apply list_elem_of_singleton in Hin. discriminate.
  - set (row := ledger_row h a (data_encoder (tx_to tx)) tx token).
    assert (∀ key val rest,
              Forall (λ e, is_cache_write e = false) rest →
              RedisSet key val
                ∈ reads ++ EthSendRawTransaction (encode_transaction tx) (inr h)
                           :: RedisSet (nonce_key a) (Py.str (tx_nonce tx + 1)) :: rest →
              key = nonce_key a ∧ val = Py.str (tx_nonce tx + 1)) as Honly.
    { intros key val rest Hrest [Hin|Hin]%elem_of_app; [destruct (Hnc _ _ Hin)|].
      apply elem_of_cons in Hin as [Hin|Hin]; [discriminate|].
      apply elem_of_cons in Hin as [[= -> ->]|Hin]; [done|].
      by apply (proj1 (Forall_forall _ _) Hrest) in Hin. }
    simpl. case_bool_decide; simpl.
    + exists (reads ++ take 3 (commit_events tx h a row)).
      split; [done|]. split; [by intros ? ? [=]|].
      intros key val Hin. exists token, tx, a, h, reads, [DbInsert row].
      destruct (Honly key val [DbInsert row]) as [-> ->]; [by repeat constructor|done|].
      split; [exact Hset|]. do 4 (split; [done|]). by repeat constructor.
    + exists (reads ++ commit_events tx h a row).
      split; [done|]. split; [by intros ? ? [=]|].
      intros key val Hin. exists token, tx, a, h, reads, [DbInsert row; DbCommit].
      destruct (Honly key val [DbInsert row; DbCommit]) as [-> ->];
        [by repeat constructor|done|].
      split; [exact Hset|]. do 4 (split; [done|]). by repeat constructor.
Qed.

(** ** The skeleton builder *)

Section Skeleton.

Context `{E : External}.

Import TransactionSkeletonHandler.

Lemma optional_supplied (payload : gmap string json) (field : string) (arg : option Z)
    (dflt : M Z) (id message : string) :
  supplies payload field arg →
  optional (dict_get payload field) dflt id message
  = match arg with
    | Some x => mret x
    | None => dflt
    end.
Proof.
  unfold supplies, optional. destruct arg as [x|].
  - intros [Hj Hp]. rewrite Hp. by destruct (dict_get payload field).
  - by intros ->.
Qed.

Lemma skeleton_run (eth : Chain) (payload : gmap string json) (w : World)
    (from_address to_address : string) (value : Z)
    (nonce_arg gas_arg price_arg : option Z) (cached : option Z) (n : Z) :
  valid_skeleton_request payload from_address to_address value →
  supplies payload "nonce" nonce_arg →
  supplies payload "gas" gas_arg →
  supplies payload "gas_price" price_arg →
  (nonce_arg = None →
   cache_holds w from_address cached ∧ eth_getTransactionCount eth from_address = inr n) →
  let N := default (nonce_floor cached n) nonce_arg in
  let G := default DEFAULT_STARTGAS gas_arg in
  let P := default DEFAULT_GASPRICE price_arg in
  post eth payload w
  = (inr {| tx_data := {| nonce := Py.hex N;
                          from := from_address;
                          to := to_address;
                          TransactionSkeletonHandler.value := Py.hex value;
                          startGas := Py.hex G;
                          gasPrice := Py.hex P |};
            tx := encode_transaction (create_transaction N P G to_address value) |},
     add_events (match nonce_arg with
                 | Some _ => []
                 | None => [RedisGet (nonce_key from_address);
                            EthGetTransactionCount from_address]
                 end) w).
Proof.
  intros (Hf & Hvf & Ht & Hvt & (v & Hv & Hp) & Hnz) Hn Hg Hgp Hc N G P.
  unfold post, has_key. rewrite Hf, Ht, Hv.
  rewrite !bool_decide_eq_true_2 by eauto. simpl negb. simpl orb. cbv iota.
  rewrite !lookup_total_alt, Hf, Ht, Hv. simpl. rewrite Hvf, Hvt, Hp. simpl.
  mnorm.
  assert (match value with
          | 0 => raise (http_error 400 "invalid_value" "Invalid Value")
          | _ => mret value
          end = (mret value : M Z)) as -> by (by destruct value).
  mnorm.
  rewrite (optional_supplied _ _ _ _ _ _ Hn), (optional_supplied _ _ _ _ _ _ Hg),
    (optional_supplied _ _ _ _ _ _ Hgp).
  destruct nonce_arg as [x|].
  - rewrite add_events_nil. destruct gas_arg, price_arg; by mnorm.
  - destruct Hc as [Hc Hcount]; [done|]. rewrite <- (add_events_nil w) at 1.
    step (reconciled_nonce_run eth from_address cached n [] w Hc Hcount).
    destruct gas_arg, price_arg; by mnorm.
Qed.

Lemma optional_pure (field : json) (d : Z) (id message : string) :
  ∃ r : exn + Z, optional field (mret d) id message = lift r.
Proof.
  unfold optional, require.
  destruct field; try (destruct (parse_int _); [by eexists (inr _)|by eexists (inl _)]).
  by exists (inr d).
Qed.

(** With the nonce supplied the handler is a function of the payload alone:
    it calls neither the cache nor the node. *)
Lemma skeleton_supplied_run (payload : gmap string json) (x : Z) :
  supplies payload "nonce" (Some x) →
  ∃ r : exn + Response,
    (∀ eth w, post eth payload w = (r, w))
    ∧ ∀ resp, r = inr resp →
        nonce (tx_data resp) = Py.hex x
        ∧ ∃ gas_price gas to_address value,
            tx resp = encode_transaction
                        (create_transaction x gas_price gas to_address value).
Proof.
  intros Hn. unfold post.
  destruct (negb (has_key payload "value") || negb (has_key payload "to")
            || negb (has_key payload "from")).
  { exists (inl (http_error 400 "bad_arguments" "Bad Arguments")). by split. }
  destruct (address_of (payload !!! "from")) as [a|]; simpl;
    [|by eexists (inl _); split].
  destruct (address_of (payload !!! "to")) as [b|]; simpl;
    [|by eexists (inl _); split].
  destruct (optional_pure (dict_get payload "gas") DEFAULT_STARTGAS
              "invalid_gas" "Invalid Gas") as [rg Hg].
  destruct (optional_pure (dict_get payload "gas_price") DEFAULT_GASPRICE
              "invalid_gas_price" "Invalid Gas Price") as [rp Hp].
  rewrite Hg, Hp.
  pose proof (λ eth, optional_supplied payload "nonce" (Some x)
                (reconciled_nonce eth a) "invalid_nonce" "Invalid Nonce" Hn) as Hx.
  simpl in Hx.
  destruct (parse_int (payload !!! "value")) as [[|v|v]|];
    try (by eexists (inl _); split).
  all: destruct rg as [e|g]; [eexists (inl e); split; [|done]; intros; mnorm;
                               rewrite Hx; by mnorm|].
  all: destruct rp as [e|p]; [eexists (inl e); split; [|done]; intros; mnorm;
                               rewrite Hx; by mnorm|].
  all: eexists (inr _); split;
    [intros; mnorm; rewrite Hx; mnorm; reflexivity|].
  all: intros resp [= <-]; simpl; split; [done|]; by eauto.
Qed.

End Skeleton.

(** C6 (skeleton defaults).  For a valid skeleton request, with each optional
    field absent or parseable: the handler answers; when [nonce] is absent the
    skeleton's nonce is [max(cached, n)] of the cached nonce and the node's
    transaction count [n], which is [n] when the cache has no entry (["0x7"]
    for [n = 7]); when [gas] is absent it is [DEFAULT_STARTGAS], when
    [gas_price] is absent it is [DEFAULT_GASPRICE]; and [tx_data] shows nonce,
    value, startGas and gasPrice in [hex], for the very numbers the encoded
    transaction is made of. *)
Theorem skeleton_defaults `{E : External} (eth : Chain) (payload : gmap string json)
    (w : World) (from_address to_address : string) (value : Z)
    (nonce_arg gas_arg price_arg : option Z) (cached : option Z) (n : Z) :
  valid_skeleton_request payload from_address to_address value →
  supplies payload "nonce" nonce_arg →
  supplies payload "gas" gas_arg →
  supplies payload "gas_price" price_arg →
  (nonce_arg = None →
   cache_holds w from_address cached ∧ eth_getTransactionCount eth from_address = inr n) →
  ∃ resp w',
    TransactionSkeletonHandler.post eth payload w = (inr resp, w')
    ∧ (nonce_arg = None →
       TransactionSkeletonHandler.nonce (TransactionSkeletonHandler.tx_data resp)
       = Py.hex (nonce_floor cached n))
    ∧ (nonce_arg = None → cached = None →
       TransactionSkeletonHandler.nonce (TransactionSkeletonHandler.tx_data resp) = Py.hex n
       ∧ (n = 7 →
          TransactionSkeletonHandler.nonce (TransactionSkeletonHandler.tx_data resp) = "0x7"))
    ∧ (gas_arg = None →
       TransactionSkeletonHandler.startGas (TransactionSkeletonHandler.tx_data resp)
       = Py.hex DEFAULT_STARTGAS)
    ∧ (price_arg = None →
       TransactionSkeletonHandler.gasPrice (TransactionSkeletonHandler.tx_data resp)
       = Py.hex DEFAULT_GASPRICE)
    ∧ ∃ N G P,
        TransactionSkeletonHandler.tx_data resp
        = {| TransactionSkeletonHandler.nonce := Py.hex N;
             TransactionSkeletonHandler.from := from_address;
             TransactionSkeletonHandler.to := to_address;
             TransactionSkeletonHandler.value := Py.hex value;
             TransactionSkeletonHandler.startGas := Py.hex G;
             TransactionSkeletonHandler.gasPrice := Py.hex P |}
        ∧ TransactionSkeletonHandler.tx resp
          = encode_transaction (create_transaction N P G to_address value).
Proof.
  intros Hv Hn Hg Hp Hc.
  pose proof (skeleton_run eth payload w _ _ _ _ _ _ cached n Hv Hn Hg Hp Hc) as Hrun.
  simpl in Hrun. eexists _, _. split; [exact Hrun|]. simpl.
  split; [by intros ->|]. split; [by intros -> ->; split; [|intros ->]|].
  split; [by intros ->|]. split; [by intros ->|]. by eexists _, _, _.
Qed.

(** C10 (a supplied nonce is echoed).  When the request supplies a nonce
    that [parse_int] reads as [x], the handler's answer is the same for every
    cache and every node and it makes no call at all, so neither the cache
    nor [eth_getTransactionCount] is read and no floor is applied; an answer
    that carries [tx_data] has [tx_data.nonce = hex(x)] and encodes a
    transaction of nonce [x]; and a request whose other fields are valid does
    get that answer. *)
Theorem skeleton_supplied_nonce_echoed `{E : External} (payload : gmap string json) (x : Z) :
  supplies payload "nonce" (Some x) →
  (∀ eth w, snd (TransactionSkeletonHandler.post eth payload w) = w)
  ∧ (∀ eth1 eth2 w1 w2,
       fst (TransactionSkeletonHandler.post eth1 payload w1)
       = fst (TransactionSkeletonHandler.post eth2 payload w2))
  ∧ (∀ eth w resp,
       fst (TransactionSkeletonHandler.post eth payload w) = inr resp →
       TransactionSkeletonHandler.nonce (TransactionSkeletonHandler.tx_data resp) = Py.hex x
       ∧ ∃ gas_price gas to_address value,
           TransactionSkeletonHandler.tx resp
           = encode_transaction (create_transaction x gas_price gas to_address value))
  ∧ (∀ eth w from_address to_address value gas_arg price_arg,
       valid_skeleton_request payload from_address to_address value →
       supplies payload "gas" gas_arg →
       supplies payload "gas_price" price_arg →
       ∃ resp, fst (TransactionSkeletonHandler.post eth payload w) = inr resp).
Proof.
  intros Hn. destruct (skeleton_supplied_run payload x Hn) as (r & Hrun & Hr).
  split; [intros; by rewrite Hrun|]. split; [intros; by rewrite !Hrun|].
  split; [intros eth w resp; rewrite Hrun; by apply Hr|].
  intros eth w a b v ga pa Hv Hg Hp.
  rewrite (skeleton_run eth payload w a b v (Some x) ga pa None 0 Hv Hn Hg Hp) by done.
  by eexists.
Qed.

(** ** Signature reconcile *)

Lemma differs_false (tx_sig : string) (x : json) :
  SendTransactionHandler.differs tx_sig x = false ↔ x = JString tx_sig.
Proof.
  destruct x; simpl; try (split; [discriminate|by intros [=]]).
  rewrite negb_false_iff, String.eqb_eq. split; [by intros ->|by intros [= ->]].
Qed.

(** C5 (signature reconcile).  For a request that authenticates and whose
    payload decodes to [tx]: if [tx] is signed and the payload carries a
    [signature] other than the one in [tx], the handler fails with
    [invalid_signature]; if [tx] is signed and the payload carries the same
    signature, or none, the handler goes on with [tx]; if [tx] is unsigned and
    there is no [signature] field it fails with [missing_signature]; if [tx]
    is unsigned and the signature does not validate or does not decode it
    fails with [invalid_signature]; otherwise the handler goes on with the
    transaction [add_signature_to_transaction] gives, and the sender is
    derived from that one. *)
Theorem signature_reconcile `{E : External} (eth : Chain)
    (request : SendTransactionHandler.Request) (sender_token_id : option string)
    (tx : Transaction) (w : World) :
  let payload := SendTransactionHandler.body request in
  let invalid_signature := http_error 400 "invalid_signature" "Invalid Signature" in
  SendTransactionHandler.authenticate (SendTransactionHandler.headers request)
    = inr sender_token_id →
  SendTransactionHandler.decode payload = inr tx →
  (is_transaction_signed tx = true →
     (∀ sig, payload !! "signature" = Some sig →
             sig ≠ JString (signature_from_transaction tx) →
             SendTransactionHandler.post eth request w = (inl invalid_signature, w))
     ∧ (payload !! "signature" = Some (JString (signature_from_transaction tx))
        ∨ payload !! "signature" = None →
        SendTransactionHandler.post eth request w
        = SendTransactionHandler.submit eth sender_token_id tx w))
  ∧ (is_transaction_signed tx = false →
       (payload !! "signature" = None →
        SendTransactionHandler.post eth request w
        = (inl (http_error 400 "missing_signature" "Missing Signature"), w))
       ∧ (∀ sig, payload !! "signature" = Some sig →
                 (∀ s, sig = JString s →
                       validate_signature s = false ∨ data_decoder s = None) →
                 SendTransactionHandler.post eth request w = (inl invalid_signature, w))
       ∧ (∀ s signature,
            payload !! "signature" = Some (JString s) →
            validate_signature s = true →
            data_decoder s = Some signature →
            let tx' := add_signature_to_transaction tx signature in
            SendTransactionHandler.post eth request w
            = SendTransactionHandler.submit eth sender_token_id tx' w
            ∧ (∀ sender, tx_sender tx' = inr sender →
                         settled request sender_token_id tx' (data_encoder sender))
            ∧ (∀ e, tx_sender tx' = inl e →
                    SendTransactionHandler.post eth request w = (inl e, w)))).
Proof.
  intros payload invalid_signature Ha Hd.
  assert (∀ r, SendTransactionHandler.reconcile_signature payload tx = r →
               SendTransactionHandler.post eth request w
               = match r with
                 | inr tx' => SendTransactionHandler.submit eth sender_token_id tx' w
                 | inl e => (inl e, w)
                 end) as Hpost.
  { intros r <-. unfold SendTransactionHandler.post. fold payload. rewrite Ha, Hd. mnorm.
    destruct (SendTransactionHandler.reconcile_signature payload tx); by mnorm. }
  unfold SendTransactionHandler.reconcile_signature in Hpost.
  split; intros Hsigned; rewrite Hsigned in Hpost.
  - split.
    + intros sig Hsig Hne. rewrite Hsig in Hpost. rewrite (Hpost _ eq_refl).
      destruct (SendTransactionHandler.differs _ sig) eqn:Hdiff; [done|].
      by apply differs_false in Hdiff.
    + intros [Hsig|Hsig]; rewrite Hsig in Hpost; rewrite (Hpost _ eq_refl); [|done].
      by rewrite (proj2 (differs_false _ _) eq_refl).
  - split; [|split].
    + intros Hsig. rewrite Hsig in Hpost. by rewrite (Hpost _ eq_refl).
    + intros sig Hsig Hbad. rewrite Hsig in Hpost. rewrite (Hpost _ eq_refl).
      unfold signature_of. destruct sig as [| | | |s| |]; try done.
      destruct (Hbad s eq_refl) as [-> | Hdec]; [done|].
      destruct (validate_signature s); [simpl; by rewrite Hdec|done].
    + intros s signature Hsig Hval Hdec tx'. subst tx'. rewrite Hsig in Hpost.
      simpl in Hpost.
      rewrite Hval, Hdec in Hpost. rewrite (Hpost _ eq_refl). split; [done|]. split.
      * intros sender Hsender. split; [done|]. split; [|by eauto].
        exists tx. split; [done|]. unfold SendTransactionHandler.reconcile_signature.
        fold payload. rewrite Hsigned, Hsig. simpl. by rewrite Hval, Hdec.
      * intros e He. unfold SendTransactionHandler.submit. rewrite He. by mnorm.
Qed.

(** C7, as the code has it (balance endpoint).  [GET /balance/{addr}] with a
    chain balance of 1000, one unconfirmed row of value 50 to [addr] and one
    unconfirmed row from [addr] of value 20 and estimated gas cost 10 answers
    [confirmed_balance "0x3e8"] and [unconfirmed_balance "0x3fc"], that is
    1000 + 50 − 30 = 1020. *)
Theorem balance_endpoint_rendering `{E : External} (eth : Chain) (addr : string)
    (cache : gmap string string) (incoming outgoing : Pending) (calls : list Event) :
  validate_address addr = true →
  eth_getBalance eth addr = inr 1000 →
  confirmed_at incoming = None ∧ recipient incoming = addr ∧ sender incoming ≠ addr
  ∧ amount incoming = 50 →
  confirmed_at outgoing = None ∧ sender outgoing = addr ∧ recipient outgoing ≠ addr
  ∧ amount outgoing = 20 ∧ gas_cost outgoing = 10 →
  fst (BalanceHandler.get eth addr
         {| redis := cache; db := store <$> [incoming; outgoing]; trace := calls |})
  = inr {| BalanceHandler.confirmed_balance := "0x3e8";
           BalanceHandler.unconfirmed_balance := "0x3fc" |}.
Proof.
  intros Hv HC (Hci & Hri & Hsi & Hai) (Hco & Hso & Hro & Hao & Hgo).
  unfold BalanceHandler.get. rewrite Hv. cbn [negb].
  set (w := {| redis := cache; db := _; trace := calls |}).
  rewrite <- (add_events_nil w).
  step (get_balances_run eth addr 1000 false [incoming; outgoing] [] w HC eq_refl).
  assert (pending_in addr [incoming; outgoing] = 50) as ->.
  { unfold pending_in. rewrite !filter_cons, filter_nil.
    rewrite decide_True by done. rewrite decide_False by (intros [_ ?]; done).
    simpl. lia. }
  assert (pending_out addr [incoming; outgoing] = 30) as ->.
  { unfold pending_out. rewrite !filter_cons, filter_nil.
    rewrite decide_False by (intros [_ ?]; done). rewrite decide_True by done.
    simpl. lia. }
  reflexivity.
Qed.

(** ** Runs on concrete requests *)

(** A concrete submission is settled: by evaluation, given the decoded
    transaction and the sender. *)
Ltac demo_settled tx0 sender :=
  split; [by vm_compute|];
  split; [exists tx0; split; by vm_compute|exists sender; split; by vm_compute].

(** S4: the cache (9) leads the node (7), the nonce 9 is accepted, the cache
    goes to 10 and one row is added. *)
Lemma post_success_commits_witness :
  SendTransactionHandler.post (Demo.node 100000 7 (inr "0xfeed"))
    (Demo.submission (Demo.transfer 9 21000 100) ∅) (Demo.world_with_nonce 9)
  = (inr {| SendTransactionHandler.tx_hash := "0xfeed" |},
     snd (SendTransactionHandler.post (Demo.node 100000 7 (inr "0xfeed"))
            (Demo.submission (Demo.transfer 9 21000 100) ∅) (Demo.world_with_nonce 9)))
  ∧ ∃ sender_token_id tx from_address reads,
      settled (Demo.submission (Demo.transfer 9 21000 100) ∅) sender_token_id tx from_address
      ∧ eth_sendRawTransaction (Demo.node 100000 7 (inr "0xfeed")) (encode_transaction tx)
        = inr "0xfeed"
      ∧ let w' := snd (SendTransactionHandler.post (Demo.node 100000 7 (inr "0xfeed"))
                         (Demo.submission (Demo.transfer 9 21000 100) ∅)
                         (Demo.world_with_nonce 9)) in
        let row := ledger_row "0xfeed" from_address (data_encoder (tx_to tx)) tx
                     sender_token_id in
        db w' = db (Demo.world_with_nonce 9) ++ [row]
        ∧ filter (λ r, transaction_hash r = "0xfeed") (db w') = [row]
        ∧ redis w' = <[nonce_key from_address := Py.str (tx_nonce tx + 1)]>
                       (redis (Demo.world_with_nonce 9))
        ∧ cache_holds w' from_address (Some (tx_nonce tx + 1))
        ∧ Forall (λ e, is_read e = true) reads
        ∧ trace w' = trace (Demo.world_with_nonce 9) ++ reads
                     ++ [ EthSendRawTransaction (encode_transaction tx) (inr "0xfeed");
                          RedisSet (nonce_key from_address) (Py.str (tx_nonce tx + 1));
                          DbInsert row;
                          DbCommit ].
Proof.
  assert (SendTransactionHandler.post (Demo.node 100000 7 (inr "0xfeed"))
            (Demo.submission (Demo.transfer 9 21000 100) ∅) (Demo.world_with_nonce 9)
          = (inr {| SendTransactionHandler.tx_hash := "0xfeed" |},
             snd (SendTransactionHandler.post (Demo.node 100000 7 (inr "0xfeed"))
                    (Demo.submission (Demo.transfer 9 21000 100) ∅)
                    (Demo.world_with_nonce 9)))) as Hrun
    by (vm_compute; reflexivity).
  split; [exact Hrun|].
  exact (post_success_commits _ _ _ _ _ Hrun).
Defined.

(** S3: node and cache at 5, a transaction of nonce 4 is refused. *)
Lemma nonce_check_floor_witness :
  fails_with
    (SendTransactionHandler.post (Demo.node 100000 5 (inr "0xfeed"))
       (Demo.submission (Demo.transfer 4 21000 100) ∅) (Demo.world_with_nonce 5))
    400 "invalid_nonce".
Proof.
  refine (proj2 (proj1 (nonce_check_floor (Demo.node 100000 5 (inr "0xfeed"))
                          (Demo.submission (Demo.transfer 4 21000 100) ∅) None
                          (Demo.transfer 4 21000 100) Demo.alice_address
                          (Demo.world_with_nonce 5)
                          (snd (SendTransactionHandler.check_funds
                                  (Demo.node 100000 5 (inr "0xfeed")) Demo.alice_address
                                  (Demo.transfer 4 21000 100) (Demo.world_with_nonce 5)))
                          (Some 5) 5 _ _ _ _)) _).
  - demo_settled (Demo.transfer 4 21000 100) Demo.alice.
  - by vm_compute.
  - by vm_compute.
  - done.
  - by vm_compute.
Defined.

(** S2: a balance of 0x100 with 0xC0 pending out does not cover
    0x60 + 0x21000. *)
Lemma funds_check_admissibility_witness :
  fails_with
    (SendTransactionHandler.post (Demo.node 256 5 (inr "0xfeed"))
       (Demo.submission (Demo.transfer 5 135168 96) ∅) Demo.world_with_pending)
    400 "insufficient_funds".
Proof.
  refine (proj2 (funds_check_admissibility (Demo.node 256 5 (inr "0xfeed"))
                   (Demo.submission (Demo.transfer 5 135168 96) ∅) None
                   (Demo.transfer 5 135168 96) Demo.alice_address
                   Demo.world_with_pending
                   (snd (BalanceMixin.get_balances (Demo.node 256 5 (inr "0xfeed"))
                           Demo.alice_address true Demo.world_with_pending))
                   256 64 _ _) _).
  - demo_settled (Demo.transfer 5 135168 96) Demo.alice.
  - by vm_compute.
  - by vm_compute.
Defined.

(** S5: an unsigned transfer with Alice's signature beside it goes on with
    the signature attached. *)
Lemma signature_reconcile_witness :
  SendTransactionHandler.post (Demo.node 100000 5 (inr "0xfeed"))
    (Demo.submission (Demo.unsigned_transfer 5 21000 100)
       {[ "signature" := JString (Demo.hex_bytes Demo.alice_sig) ]})
    Demo.empty_world
  = SendTransactionHandler.submit (H := Demo.env) (Demo.node 100000 5 (inr "0xfeed")) None
      (Demo.transfer 5 21000 100) Demo.empty_world
  ∧ settled
      (Demo.submission (Demo.unsigned_transfer 5 21000 100)
         {[ "signature" := JString (Demo.hex_bytes Demo.alice_sig) ]})
      None (Demo.transfer 5 21000 100) Demo.alice_address.
Proof.
  pose proof (signature_reconcile (Demo.node 100000 5 (inr "0xfeed"))
                (Demo.submission (Demo.unsigned_transfer 5 21000 100)
                   {[ "signature" := JString (Demo.hex_bytes Demo.alice_sig) ]})
                None (Demo.unsigned_transfer 5 21000 100) Demo.empty_world) as H.
  cbv zeta in H.
  destruct (H ltac:(by vm_compute) ltac:(by vm_compute)) as [_ Hunsigned].
  destruct (Hunsigned ltac:(by vm_compute)) as (_ & _ & Hattach).
  destruct (Hattach (Demo.hex_bytes Demo.alice_sig) Demo.alice_sig
              ltac:(by vm_compute) ltac:(by vm_compute) ltac:(by vm_compute))
    as (Hpost & Hsettled & _).
  split; [exact Hpost|]. exact (Hsettled Demo.alice ltac:(by vm_compute)).
Defined.

(** S1: no optional field, node nonce 7, empty cache. *)
Lemma skeleton_defaults_witness :
  ∃ resp w',
    TransactionSkeletonHandler.post (Demo.node 0 7 (inl JNull)) (Demo.skeleton_request ∅)
      Demo.empty_world = (inr resp, w')
    ∧ TransactionSkeletonHandler.nonce (TransactionSkeletonHandler.tx_data resp) = "0x7"
    ∧ TransactionSkeletonHandler.startGas (TransactionSkeletonHandler.tx_data resp)
      = Py.hex DEFAULT_STARTGAS
    ∧ TransactionSkeletonHandler.gasPrice (TransactionSkeletonHandler.tx_data resp)
      = Py.hex DEFAULT_GASPRICE.
Proof.
  destruct (skeleton_defaults (Demo.node 0 7 (inl JNull)) (Demo.skeleton_request ∅)
              Demo.empty_world Demo.alice_address Demo.bob_address 100 None None None None 7)
    as (resp & w' & Hrun & _ & Hnonce & Hgas & Hprice & _).
  - repeat split; try by vm_compute. exists (JString "0x64"). split; by vm_compute.
  - by vm_compute.
  - by vm_compute.
  - by vm_compute.
  - intros _. split; by vm_compute.
  - exists resp, w'. split; [exact Hrun|]. split; [|by auto].
    by apply (Hnonce eq_refl eq_refl).
Defined.

(** A supplied nonce of 3 with the node at 7. *)
Lemma skeleton_supplied_nonce_echoed_witness :
  snd (TransactionSkeletonHandler.post (Demo.node 0 7 (inl JNull))
         (Demo.skeleton_request {[ "nonce" := JString "0x3" ]}) (Demo.world_with_nonce 9))
  = Demo.world_with_nonce 9
  ∧ ∃ resp,
      fst (TransactionSkeletonHandler.post (Demo.node 0 7 (inl JNull))
             (Demo.skeleton_request {[ "nonce" := JString "0x3" ]})
             (Demo.world_with_nonce 9)) = inr resp
      ∧ TransactionSkeletonHandler.nonce (TransactionSkeletonHandler.tx_data resp) = "0x3".
Proof.
  destruct (skeleton_supplied_nonce_echoed
              (Demo.skeleton_request {[ "nonce" := JString "0x3" ]}) 3)
    as (Hquiet & _ & Hecho & Hanswer).
  - split; [by vm_compute|by vm_compute].
  - split; [apply Hquiet|].
    destruct (Hanswer (Demo.node 0 7 (inl JNull)) (Demo.world_with_nonce 9)
                Demo.alice_address Demo.bob_address 100 None None) as [resp Hresp].
    + repeat split; try by vm_compute. exists (JString "0x64"). split; by vm_compute.
    + by vm_compute.
    + by vm_compute.
    + exists resp. split; [exact Hresp|]. by apply (Hecho _ _ _ Hresp).
Defined.

(** S6 on the sample ledger. *)
Lemma balance_endpoint_rendering_witness :
  fst (BalanceHandler.get (Demo.node 1000 7 (inl JNull)) Demo.alice_address
         {| redis := ∅; db := store <$> [Demo.incoming; Demo.outgoing]; trace := [] |})
  = inr {| BalanceHandler.confirmed_balance := "0x3e8";
           BalanceHandler.unconfirmed_balance := "0x3fc" |}.
Proof.
  apply (balance_endpoint_rendering (Demo.node 1000 7 (inl JNull)) Demo.alice_address
           ∅ Demo.incoming Demo.outgoing []).
  - by vm_compute.
  - done.
  - repeat split; by vm_compute.
  - repeat split; by vm_compute.
Defined.

(** C7 as the specification states it does not hold: on the scenario's
    ledger the endpoint answers ["0x3fc"] (1020), not ["0x40c"] (1036). *)
Lemma balance_endpoint_rendering_counterexample :
  fst (BalanceHandler.get (Demo.node 1000 7 (inl JNull)) Demo.alice_address
         {| redis := ∅; db := store <$> [Demo.incoming; Demo.outgoing]; trace := [] |})
  ≠ inr {| BalanceHandler.confirmed_balance := "0x3e8";
           BalanceHandler.unconfirmed_balance := "0x40c" |}.
Proof. vm_compute. intros [=]. Qed.


(** * Further properties of the handlers *)

(** ** The balance oracle, on any ledger *)


(** The result of [get_balances] depends on the ledger through its two
    [SELECT]s only. *)
Lemma get_balances_filters (eth : Chain) (a : string) (ignore : bool) (w1 w2 : World) :
  filter (pending_from a) (db w1) = filter (pending_from a) (db w2) →
  filter (pending_to a) (db w1) = filter (pending_to a) (db w2) →
  fst (BalanceMixin.get_balances eth a ignore w1)
  = fst (BalanceMixin.get_balances eth a ignore w2).
Proof.
  intros Hf Ht. unfold BalanceMixin.get_balances, fetch_pending_sent, fetch_pending_received.
  destruct (eth_getBalance eth a); repeat mcompute; [done|]. rewrite Hf.
  destruct ignore; repeat (case_match; simpl in *; rewrite ?Ht in *; simplify_eq; try done).
Qed.

Lemma get_balances_errors (eth : Chain) (a : string) (ignore : bool) (w w' : World) (e : exn) :
  BalanceMixin.get_balances eth a ignore w = (inl e, w') →
  e = ValueError ∨ ∃ j, e = JsonRPCError j.
Proof.
  unfold BalanceMixin.get_balances, fetch_pending_sent, fetch_pending_received.
  destruct (eth_getBalance eth a); repeat mcompute; [intros [= <- _]; by eauto|].
  repeat (case_match; simpl in *; simplify_eq; try done); intros [= <- _]; by auto.
Qed.

(** [get_balances] never writes.  Whatever the ledger holds and whatever the
    node answers, the cache and the ledger are as before, and the calls made
    are an initial part of: the node's balance, the rows sent, and (unless
    received rows are ignored) the rows received. *)
Theorem get_balances_never_writes (eth : Chain) (a : string) (ignore : bool) (w : World) :
  ∃ reads,
    snd (BalanceMixin.get_balances eth a ignore w) = add_events reads w
    ∧ reads `prefix_of` [EthGetBalance a; DbFetchSent a]
                        ++ (if ignore then [] else [DbFetchReceived a]).
Proof.
  unfold BalanceMixin.get_balances, fetch_pending_sent, fetch_pending_received.
  destruct (eth_getBalance eth a); repeat mcompute; unfold add_events, record_event.
  { exists [EthGetBalance a]. split; [done|]. by eexists. }
  destruct ignore; repeat (case_match; simpl in *; simplify_eq);
    (eexists; split; [simpl; rewrite <- ?app_assoc; simpl; reflexivity|by eexists]).
Qed.



(** A row that is confirmed, or that is neither from nor to [a], does not
    count: with or without it in the ledger [get_balances] gives the same
    result for [a]. *)
Theorem get_balances_skips_other_rows (eth : Chain) (a : string) (ignore : bool)
    (cache : gmap string string) (before after : list Row) (r : Row) (calls : list Event) :
  confirmed r ≠ None ∨ (from_address r ≠ a ∧ to_address r ≠ a) →
  fst (BalanceMixin.get_balances eth a ignore
         {| redis := cache; db := before ++ r :: after; trace := calls |})
  = fst (BalanceMixin.get_balances eth a ignore
           {| redis := cache; db := before ++ after; trace := calls |}).
Proof.
  intros Hr. apply get_balances_filters; simpl;
    rewrite !filter_app, filter_cons_False; try done;
    unfold pending_from, pending_to; intros [Hc Ha]; destruct Hr as [?|[? ?]]; done.
Qed.

Lemma get_balances_skips_other_rows_witness :
  fst (BalanceMixin.get_balances (Demo.node 1000 7 (inl JNull)) Demo.alice_address false
         {| redis := ∅;
            db := [store Demo.incoming]
                  ++ {| transaction_hash := "0x05"; from_address := Demo.alice_address;
                        to_address := Demo.bob_address; value := "700";
                        estimated_gas_cost := "21000"; sender_token_id := None;
                        confirmed := Some 1500000000 |} :: [store Demo.outgoing];
            trace := [] |})
  = fst (BalanceMixin.get_balances (Demo.node 1000 7 (inl JNull)) Demo.alice_address false
           {| redis := ∅; db := [store Demo.incoming] ++ [store Demo.outgoing];
              trace := [] |}).
Proof.
  apply (get_balances_skips_other_rows (Demo.node 1000 7 (inl JNull)) Demo.alice_address
           false ∅ [store Demo.incoming] [store Demo.outgoing]).
  left. done.
Defined.

Lemma Forall_filter_keep {A : Type} (P Q : A → Prop) `{∀ x, Decision (P x)} (l : list A) :
  Forall Q l → Forall Q (filter P l).
Proof.
  intros Hl. apply Forall_forall. intros x [_ Hin]%list_elem_of_filter.
  by apply (proj1 (Forall_forall Q l) Hl).
Qed.

Lemma total_nonneg (f : Pending → Z) (l : list Pending) :
  Forall (λ p, 0 ≤ f p) l → 0 ≤ total f l.
Proof. induction 1; simpl; lia. Qed.

(** With no negative amount in the ledger, what [a] may spend (pending
    received ignored) is at most the confirmed balance and at most the balance
    shown (pending received counted). *)
Theorem spendable_at_most_confirmed (eth : Chain) (a : string) (C : Z)
    (cache : gmap string string) (rows : list Pending) (calls : list Event) :
  eth_getBalance eth a = inr C →
  Forall (λ p, 0 ≤ amount p ∧ 0 ≤ gas_cost p) rows →
  ∃ spendable shown,
    fst (BalanceMixin.get_balances eth a true
           {| redis := cache; db := store <$> rows; trace := calls |})
    = inr (C, spendable)
    ∧ fst (BalanceMixin.get_balances eth a false
             {| redis := cache; db := store <$> rows; trace := calls |})
      = inr (C, shown)
    ∧ spendable ≤ C
    ∧ spendable ≤ shown.
Proof.
  intros HC Hpos. set (w := {| redis := cache; db := _; trace := calls |}).
  rewrite <- (add_events_nil w).
  rewrite !(get_balances_run eth a C _ rows [] w HC eq_refl). simpl.
  eexists _, _. split; [done|]. split; [done|].
  assert (0 ≤ pending_in a rows).
  { apply total_nonneg. apply Forall_filter_keep.
    eapply Forall_impl; [exact Hpos|]. by intros p [? _]. }
  assert (0 ≤ pending_out a rows).
  { apply total_nonneg. apply Forall_filter_keep.
    eapply Forall_impl; [exact Hpos|]. intros p [? ?]. simpl. lia. }
  lia.
Qed.

Lemma spendable_at_most_confirmed_witness :
  ∃ spendable shown,
    fst (BalanceMixin.get_balances (Demo.node 1000 7 (inl JNull)) Demo.alice_address true
           {| redis := ∅; db := store <$> Demo.ledger; trace := [] |})
    = inr (1000, spendable)
    ∧ fst (BalanceMixin.get_balances (Demo.node 1000 7 (inl JNull)) Demo.alice_address false
             {| redis := ∅; db := store <$> Demo.ledger; trace := [] |})
      = inr (1000, shown)
    ∧ spendable ≤ 1000
    ∧ spendable ≤ shown.
Proof.
  apply (spendable_at_most_confirmed (Demo.node 1000 7 (inl JNull)) Demo.alice_address
           1000 ∅ Demo.ledger []).
  - done.
  - repeat constructor; by vm_compute.
Defined.

(** ** The balance endpoint *)

Lemma hex_of_negative (n : Z) : n < 0 → Py.hex n = "-" +:+ Py.hex (- n).
Proof.
  intros Hn. unfold Py.hex. rewrite Zabs2N.inj_opp.
  rewrite (proj2 (Z.ltb_lt n 0) Hn).
  by rewrite (proj2 (Z.ltb_ge (- n) 0)) by lia.
Qed.

(** When the pending rows sent by an address outweigh its balance and the
    pending rows it receives, [GET /balance] shows the unconfirmed balance as
    a negative literal: a minus sign before the [0x] form of the amount
    overdrawn. *)
Theorem overdrawn_balance_rendering `{E : External} (eth : Chain) (addr : string) (C : Z)
    (cache : gmap string string) (rows : list Pending) (calls : list Event) :
  validate_address addr = true →
  eth_getBalance eth addr = inr C →
  C + pending_in addr rows < pending_out addr rows →
  fst (BalanceHandler.get eth addr
         {| redis := cache; db := store <$> rows; trace := calls |})
  = inr {| BalanceHandler.confirmed_balance := Py.hex C;
           BalanceHandler.unconfirmed_balance :=
             "-" +:+ Py.hex (pending_out addr rows - (C + pending_in addr rows)) |}.
Proof.
  intros Hv HC Hlt. unfold BalanceHandler.get. rewrite Hv. cbn [negb].
  set (w := {| redis := cache; db := _; trace := calls |}).
  rewrite <- (add_events_nil w).
  step (get_balances_run eth addr C false rows [] w HC eq_refl). simpl.
  rewrite (hex_of_negative (C + pending_in addr rows - pending_out addr rows)) by lia.
  do 4 f_equal. lia.
Qed.

Lemma overdrawn_balance_rendering_witness :
  fst (BalanceHandler.get (Demo.node 10 7 (inl JNull)) Demo.bob_address
         {| redis := ∅; db := store <$> Demo.ledger; trace := [] |})
  = inr {| BalanceHandler.confirmed_balance := Py.hex 10;
           BalanceHandler.unconfirmed_balance :=
             "-" +:+ Py.hex (pending_out Demo.bob_address Demo.ledger
                            - (10 + pending_in Demo.bob_address Demo.ledger)) |}.
Proof.
  apply (overdrawn_balance_rendering (Demo.node 10 7 (inl JNull)) Demo.bob_address 10
           ∅ Demo.ledger []).
  - by vm_compute.
  - done.
  - by vm_compute.
Defined.

(** [GET /balance] answers with a [JSONHTTPError] exactly when the address
    does not validate; it is then [invalid_address] (400), raised before
    anything is called. *)
Theorem balance_get_rejects_only_invalid_address `{E : External} (eth : Chain)
    (address : string) (w : World) :
  ((∃ status errors,
      fst (BalanceHandler.get eth address w) = inl (JSONHTTPError status errors))
   ↔ validate_address address = false)
  ∧ (validate_address address = false →
     BalanceHandler.get eth address w
     = (inl (http_error 400 "invalid_address" "Invalid Address"), w)).
Proof.
  unfold BalanceHandler.get. destruct (validate_address address); simpl.
  - split; [|done]. split; [|done]. intros (status & errors & Hfail).
    rewrite run_bind in Hfail.
    destruct (BalanceMixin.get_balances eth address false w) as [[e|[c u]] w'] eqn:Hb;
      [|done].
    apply get_balances_errors in Hb. simpl in Hfail.
    destruct Hb as [-> | [j ->]]; discriminate.
  - split; [|done]. split; [done|]. intros _. by eexists _, _.
Qed.

(** ** The nonce both handlers reconcile, on any cache *)

(** Whatever the cache holds, a reconciled nonce is never below the node's
    transaction count: it is that count, or a cached number that is at least
    as large. *)
Theorem reconciled_nonce_at_least_chain (eth : Chain) (a : string) (w w' : World) (v : Z) :
  reconciled_nonce eth a w = (inr v, w') →
  ∃ n, eth_getTransactionCount eth a = inr n
       ∧ n ≤ v
       ∧ (v = n ∨ ∃ s, redis w !! nonce_key a = Some s ∧ Py.int s = Some v).
Proof.
  unfold reconciled_nonce, redis_get. mcompute.
  destruct (redis w !! nonce_key a) as [s|] eqn:Hs; simpl;
    [destruct (Py.truthy s); simpl; [destruct (Py.int s) as [c|] eqn:Hc; simpl|]|];
    try done;
    destruct (eth_getTransactionCount eth a) as [err|n]; simpl; try done.
  - destruct (Z.gtb_spec n c); intros [= <- _]; exists n;
      (split; [done|]); (split; [lia|]); [by left|right; by eauto].
  - intros [= <- _]. exists n. split; [done|]. split; [lia|by left].
Qed.

Lemma reconciled_nonce_at_least_chain_witness :
  ∃ n, eth_getTransactionCount (Demo.node 0 7 (inl JNull)) Demo.alice_address = inr n
       ∧ n ≤ 9
       ∧ (9 = n ∨ ∃ s, redis (Demo.world_with_nonce 9) !! nonce_key Demo.alice_address = Some s
                       ∧ Py.int s = Some 9).
Proof.
  apply (reconciled_nonce_at_least_chain (Demo.node 0 7 (inl JNull)) Demo.alice_address
           (Demo.world_with_nonce 9)
           (snd (reconciled_nonce (Demo.node 0 7 (inl JNull)) Demo.alice_address
                   (Demo.world_with_nonce 9)))).
  by vm_compute.
Defined.

(** A cache entry that is not a number: if it is not empty, [int()] raises
    [ValueError] before the node is asked; if it is empty it is kept as it is,
    the node is asked, and comparing its count with the entry raises
    [TypeError]. *)
Theorem reconciled_nonce_malformed_cache (eth : Chain) (a s : string) (w : World) :
  redis w !! nonce_key a = Some s →
  (s ≠ EmptyString → Py.int s = None →
   reconciled_nonce eth a w = (inl ValueError, add_events [RedisGet (nonce_key a)] w))
  ∧ (s = EmptyString → ∀ n, eth_getTransactionCount eth a = inr n →
     reconciled_nonce eth a w
     = (inl TypeError,
        add_events [RedisGet (nonce_key a); EthGetTransactionCount a] w)).
Proof.
  intros Hs. unfold reconciled_nonce. split.
  - intros Hne Hint. rewrite <- (add_events_nil w) at 1.
    step (run_redis_get (nonce_key a) [] w). rewrite Hs.
    destruct s; [done|]. simpl Py.truthy. cbv iota. rewrite Hint. reflexivity.
  - intros -> n Hn. rewrite <- (add_events_nil w) at 1.
    step (run_redis_get (nonce_key a) [] w). rewrite Hs. simpl. mnorm.
    step (run_emit (EthGetTransactionCount a) ([] ++ [RedisGet (nonce_key a)]) w).
    rewrite Hn. simpl. by mnorm.
Qed.

Lemma reconciled_nonce_malformed_cache_witness :
  reconciled_nonce (Demo.node 0 7 (inl JNull)) Demo.alice_address
    {| redis := {[ nonce_key Demo.alice_address := "seven" ]}; db := []; trace := [] |}
  = (inl ValueError,
     add_events [RedisGet (nonce_key Demo.alice_address)]
       {| redis := {[ nonce_key Demo.alice_address := "seven" ]}; db := []; trace := [] |}).
Proof.
  apply (proj1 (reconciled_nonce_malformed_cache (Demo.node 0 7 (inl JNull))
                  Demo.alice_address "seven"
                  {| redis := {[ nonce_key Demo.alice_address := "seven" ]};
                     db := []; trace := [] |} ltac:(by vm_compute))).
  - done.
  - by vm_compute.
Defined.

(** ** The skeleton builder, on any request *)

Section SkeletonAnyRequest.

Context `{E : External}.

Import TransactionSkeletonHandler.



End SkeletonAnyRequest.


Lemma optional_cases `{E : External} (field : json) (d : M Z) (id message : string) :
  (field = JNull ∧ TransactionSkeletonHandler.optional field d id message = d)
  ∨ (field ≠ JNull
     ∧ TransactionSkeletonHandler.optional field d id message
       = require (parse_int field) (http_error 400 id message)).
Proof. destruct field; by auto. Qed.





(** The order in which [POST /tx/skeleton] validates a request that has its
    three required fields: the sender first, then the recipient, then the
    value, which must parse and must not be zero, then a supplied nonce.  Each
    failure is raised before anything is called. *)
Theorem skeleton_validation_order `{E : External} (eth : Chain)
    (payload : gmap string json) (jf jt jv : json) (w : World) :
  payload !! "from" = Some jf →
  payload !! "to" = Some jt →
  payload !! "value" = Some jv →
  (address_of jf = None →
   TransactionSkeletonHandler.post eth payload w
   = (inl (http_error 400 "invalid_from_address" "Invalid From Address"), w))
  ∧ (is_Some (address_of jf) → address_of jt = None →
     TransactionSkeletonHandler.post eth payload w
     = (inl (http_error 400 "invalid_to_address" "Invalid To Address"), w))
  ∧ (is_Some (address_of jf) → is_Some (address_of jt) →
     parse_int jv = None ∨ parse_int jv = Some 0 →
     TransactionSkeletonHandler.post eth payload w
     = (inl (http_error 400 "invalid_value" "Invalid Value"), w))
  ∧ (is_Some (address_of jf) → is_Some (address_of jt) →
     (∃ v, parse_int jv = Some v ∧ v ≠ 0) →
     dict_get payload "nonce" ≠ JNull → parse_int (dict_get payload "nonce") = None →
     TransactionSkeletonHandler.post eth payload w
     = (inl (http_error 400 "invalid_nonce" "Invalid Nonce"), w)).
Proof.
  intros Hf Ht Hv. unfold TransactionSkeletonHandler.post, has_key.
  rewrite !lookup_total_alt, Hf, Ht, Hv.
  rewrite !bool_decide_eq_true_2 by eauto. simpl.
  split; [by intros ->|].
  split; [by intros [a ->] ->|].
  split.
  - intros [a ->] [b ->] [-> | ->]; reflexivity.
  - intros [a ->] [b ->] (v & -> & Hnz) Hj Hp. simpl. mnorm.
    destruct (optional_cases (dict_get payload "nonce") (reconciled_nonce eth a)
                "invalid_nonce" "Invalid Nonce") as [[Hj' _]|[_ Hopt]]; [done|].
    destruct v; [done| |]; rewrite run_bind_ret, Hopt, Hp; reflexivity.
Qed.

Lemma skeleton_validation_order_witness :
  TransactionSkeletonHandler.post (Demo.node 0 7 (inl JNull))
    (<["value" := JString "0x0"]> (Demo.skeleton_request ∅)) Demo.empty_world
  = (inl (http_error 400 "invalid_value" "Invalid Value"), Demo.empty_world).
Proof.
  refine (proj1 (proj2 (proj2 (skeleton_validation_order (Demo.node 0 7 (inl JNull))
                                 (<["value" := JString "0x0"]> (Demo.skeleton_request ∅))
                                 (JString Demo.alice_address) (JString Demo.bob_address)
                                 (JString "0x0") Demo.empty_world _ _ _))) _ _ _);
    try (by vm_compute).
  - by eexists.
  - by eexists.
  - right. by vm_compute.
Defined.

(** ** The submission pipeline, on any request *)

Section SubmissionAnyRequest.

Context `{E : External}.

Import SendTransactionHandler.

Lemma settled_unique (request : Request) (t1 t2 : option string) (tx1 tx2 : Transaction)
    (a1 a2 : string) :
  settled request t1 tx1 a1 → settled request t2 tx2 a2 →
  t1 = t2 ∧ tx1 = tx2 ∧ a1 = a2.
Proof.
  intros (Ha1 & (x1 & Hd1 & Hr1) & s1 & Hs1 & ->) (Ha2 & (x2 & Hd2 & Hr2) & s2 & Hs2 & ->).
  rewrite Ha1 in Ha2. rewrite Hd1 in Hd2. injection Ha2 as <-. injection Hd2 as <-.
  rewrite Hr1 in Hr2. injection Hr2 as <-. rewrite Hs1 in Hs2. by injection Hs2 as <-.
Qed.

End SubmissionAnyRequest.

(** A submission is turned down before anything is called when it does not
    get as far as the balance check: a signed request that does not verify
    fails with the verifier's error whatever its payload; a payload without
    [tx] fails with [bad_arguments] and one whose [tx] does not decode with
    [invalid_transaction]; and every submission that is not settled ends in an
    exception with the cache, the ledger and the trace untouched. *)
Theorem rejected_before_any_call `{E : External} (eth : Chain)
    (request : SendTransactionHandler.Request) (w : World) :
  (∀ e, is_request_signed (SendTransactionHandler.headers request) = true →
        verify_request (SendTransactionHandler.headers request) = inl e →
        SendTransactionHandler.post eth request w = (inl e, w))
  ∧ (∀ t, SendTransactionHandler.authenticate (SendTransactionHandler.headers request)
          = inr t →
          (SendTransactionHandler.body request !! "tx" = None →
           SendTransactionHandler.post eth request w = (inl bad_arguments, w))
          ∧ (∀ raw, SendTransactionHandler.body request !! "tx" = Some raw →
                    decode_transaction raw = None →
                    SendTransactionHandler.post eth request w
                    = (inl (http_error 400 "invalid_transaction" "Invalid Transaction"),
                       w)))
  ∧ ((∃ sender_token_id tx from_address,
        settled request sender_token_id tx from_address)
     ∨ ∃ e, SendTransactionHandler.post eth request w = (inl e, w)).
Proof.
  split; [|split; [|apply post_unsettled]].
  - intros e Hsigned Hverify. unfold SendTransactionHandler.post,
      SendTransactionHandler.authenticate. by rewrite Hsigned, Hverify.
  - intros t Ht. unfold SendTransactionHandler.post, SendTransactionHandler.decode.
    rewrite Ht. split.
    + by intros ->.
    + intros raw -> Hraw. by rewrite Hraw.
Qed.



(** A transaction cannot be replayed.  Right after a submission of nonce [n]
    by a sender has succeeded, a submission by the same sender whose nonce is
    [n] or less, if it gets as far as the nonce check, fails with
    [invalid_nonce], whatever transaction count the node reports. *)
Theorem replay_is_refused `{E : External} (eth eth2 : Chain)
    (request request2 : SendTransactionHandler.Request)
    (token token2 : option string) (tx tx2 : Transaction) (from_address : string)
    (w w' w1 : World) (resp : SendTransactionHandler.Response) (m : Z) :
  SendTransactionHandler.post eth request w = (inr resp, w') →
  settled request token tx from_address →
  settled request2 token2 tx2 from_address →
  tx_nonce tx2 ≤ tx_nonce tx →
  SendTransactionHandler.check_funds eth2 from_address tx2 w' = (inr (), w1) →
  eth_getTransactionCount eth2 from_address = inr m →
  fails_with (SendTransactionHandler.post eth2 request2 w') 400 "invalid_nonce".
Proof.
  intros Hpost Hset Hset2 Hle Hf Hm.
  assert (cache_holds w' from_address (Some (tx_nonce tx + 1))) as Hc.
  { destruct (post_outcomes eth request w)
      as [(e & reads & _ & He)
         |(t & x & a & reads & Hset' & _ & [(err & _ & He)|(h & _ & He)])];
      [congruence|congruence|].
    destruct (settled_unique _ _ _ _ _ _ _ Hset Hset') as (<- & <- & <-).
    simpl in He. rewrite Hpost in He. case_bool_decide; [done|].
    injection He as _ ->. unfold cache_holds. simpl. by rewrite lookup_insert_eq. }
  destruct (observes_run _ _ _ _ (check_funds_observes eth2 from_address tx2) Hf)
    as (evs & -> & _).
  rewrite (post_settled eth2 _ _ _ _ w' Hset2). step Hf.
  unfold SendTransactionHandler.check_nonce.
  step (reconciled_nonce_run eth2 from_address (Some (tx_nonce tx + 1)) m evs w' Hc Hm).
  simpl nonce_floor. rewrite (proj2 (Z.ltb_lt _ _)) by lia.
  by eexists.
Qed.

Lemma replay_is_refused_witness :
  fails_with
    (SendTransactionHandler.post (Demo.node 100000 7 (inr "0xbeef"))
       (Demo.submission (Demo.transfer 9 21000 100) ∅)
       (snd (SendTransactionHandler.post (Demo.node 100000 7 (inr "0xfeed"))
               (Demo.submission (Demo.transfer 9 21000 100) ∅) (Demo.world_with_nonce 9))))
    400 "invalid_nonce".
Proof.
  apply (replay_is_refused (Demo.node 100000 7 (inr "0xfeed"))
           (Demo.node 100000 7 (inr "0xbeef"))
           (Demo.submission (Demo.transfer 9 21000 100) ∅)
           (Demo.submission (Demo.transfer 9 21000 100) ∅)
           None None (Demo.transfer 9 21000 100) (Demo.transfer 9 21000 100)
           Demo.alice_address (Demo.world_with_nonce 9) _
           (snd (SendTransactionHandler.check_funds (H := Demo.env)
                   (Demo.node 100000 7 (inr "0xbeef")) Demo.alice_address
                   (Demo.transfer 9 21000 100)
                   (snd (SendTransactionHandler.post (Demo.node 100000 7 (inr "0xfeed"))
                           (Demo.submission (Demo.transfer 9 21000 100) ∅)
                           (Demo.world_with_nonce 9)))))
           {| SendTransactionHandler.tx_hash := "0xfeed" |} 7).
  - by vm_compute.
  - demo_settled (Demo.transfer 9 21000 100) Demo.alice.
  - demo_settled (Demo.transfer 9 21000 100) Demo.alice.
  - done.
  - by vm_compute.
  - done.
Defined.

Lemma total_app (f : Pending → Z) (l1 l2 : list Pending) :
  total f (l1 ++ l2) = total f l1 + total f l2.
Proof. induction l1 as [|p l1 IH]; simpl; [done|]. rewrite IH. lia. Qed.

(** What a successful submission leaves in the ledger is what the balance
    oracle reads afterwards.  On a ledger of numbers, once [POST /tx] has
    answered, the sender's spendable balance is lower by exactly
    [tx.value + tx.startgas * tx.gasprice], and the balance shown for a
    recipient other than the sender is higher by exactly [tx.value]. *)
Theorem submission_is_accounted `{E : External} (eth eth2 : Chain)
    (request : SendTransactionHandler.Request) (token : option string)
    (tx : Transaction) (from_address : string) (w w' : World)
    (resp : SendTransactionHandler.Response) (rows : list Pending) (C D : Z) :
  SendTransactionHandler.post eth request w = (inr resp, w') →
  settled request token tx from_address →
  db w = store <$> rows →
  eth_getBalance eth2 from_address = inr C →
  eth_getBalance eth2 (data_encoder (tx_to tx)) = inr D →
  fst (BalanceMixin.get_balances eth2 from_address true w')
  = inr (C, C - pending_out from_address rows
            - (tx_value tx + tx_startgas tx * tx_gasprice tx))
  ∧ (data_encoder (tx_to tx) ≠ from_address →
     fst (BalanceMixin.get_balances eth2 (data_encoder (tx_to tx)) false w')
     = inr (D, D + (pending_in (data_encoder (tx_to tx)) rows + tx_value tx)
               - pending_out (data_encoder (tx_to tx)) rows)).
Proof.
  intros Hpost Hset Hdb HC HD.
  destruct (post_outcomes eth request w)
    as [(e & reads & _ & He)
       |(t & x & a & reads & Hset' & _ & [(err & _ & He)|(h & _ & He)])];
    [congruence|congruence|].
  destruct (settled_unique _ _ _ _ _ _ _ Hset Hset') as (<- & <- & <-).
  simpl in He. rewrite Hpost in He. case_bool_decide; [done|]. injection He as _ ->.
  set (p := {| hash := h; sender := from_address; recipient := data_encoder (tx_to tx);
               amount := tx_value tx; gas_cost := tx_startgas tx * tx_gasprice tx;
               token_id := token; confirmed_at := None |}).
  set (w' := {| redis := _; db := _; trace := _ |}).
  assert (db w' = store <$> (rows ++ [p])) as Hdb'.
  { unfold w'. simpl. by rewrite Hdb, fmap_app. }
  split.
  - rewrite <- (add_events_nil w').
    rewrite (get_balances_run eth2 from_address C true (rows ++ [p]) [] w' HC Hdb'). simpl.
    unfold pending_out. rewrite filter_app, total_app.
    rewrite filter_cons_True by done. simpl. do 2 f_equal. lia.
  - intros Hne. rewrite <- (add_events_nil w').
    rewrite (get_balances_run eth2 _ D false (rows ++ [p]) [] w' HD Hdb'). simpl.
    unfold pending_in, pending_out. rewrite !filter_app, !total_app.
    rewrite filter_cons_True by done.
    rewrite (filter_cons_False _ p) by (intros [_ Hs]; simpl in Hs; congruence).
    simpl. do 2 f_equal. lia.
Qed.

(** As soon as the node has answered the broadcast with a hash the nonce is
    cached, before the row is inserted: whatever the insert does, the cache
    entry of the sender then holds [tx.nonce + 1], and the ledger is as before
    or has gained the one row. *)
Theorem nonce_cached_once_accepted `{E : External} (eth : Chain)
    (request : SendTransactionHandler.Request) (token : option string)
    (tx : Transaction) (from_address h : string) (w w1 w2 : World) :
  settled request token tx from_address →
  SendTransactionHandler.check_funds eth from_address tx w = (inr (), w1) →
  SendTransactionHandler.check_nonce eth from_address tx w1 = (inr (), w2) →
  eth_sendRawTransaction eth (encode_transaction tx) = inr h →
  redis (snd (SendTransactionHandler.post eth request w))
  = <[nonce_key from_address := Py.str (tx_nonce tx + 1)]> (redis w)
  ∧ (db (snd (SendTransactionHandler.post eth request w)) = db w
     ∨ db (snd (SendTransactionHandler.post eth request w))
       = db w ++ [ledger_row h from_address (data_encoder (tx_to tx)) tx token]).
Proof.
  intros Hset Hf Hn Hs.
  destruct (observes_run _ _ _ _ (check_funds_observes eth from_address tx) Hf)
    as (evs1 & -> & _).
  destruct (observes_run _ _ _ _ (check_nonce_observes eth from_address tx) Hn)
    as (evs2 & -> & _).
  rewrite (post_settled eth _ _ _ _ w Hset). step Hf. step Hn.
  rewrite add_events_app, (broadcast_success _ _ _ _ _ _ _ _ Hs).
  case_bool_decide; simpl; by auto.
Qed.

Lemma submission_is_accounted_witness :
  fst (BalanceMixin.get_balances (Demo.node 100000 10 (inl JNull)) Demo.alice_address true
         (snd (SendTransactionHandler.post (Demo.node 100000 7 (inr "0xfeed"))
                 (Demo.submission (Demo.transfer 9 21000 100) ∅)
                 (Demo.world_with_nonce 9))))
  = inr (100000, 78900).
Proof.
  exact (proj1 (submission_is_accounted (Demo.node 100000 7 (inr "0xfeed"))
                  (Demo.node 100000 10 (inl JNull))
                  (Demo.submission (Demo.transfer 9 21000 100) ∅) None
                  (Demo.transfer 9 21000 100) Demo.alice_address
                  (Demo.world_with_nonce 9)
                  (snd (SendTransactionHandler.post (Demo.node 100000 7 (inr "0xfeed"))
                          (Demo.submission (Demo.transfer 9 21000 100) ∅)
                          (Demo.world_with_nonce 9)))
                  {| SendTransactionHandler.tx_hash := "0xfeed" |} [] 100000 100000
                  ltac:(by vm_compute)
                  ltac:(demo_settled (Demo.transfer 9 21000 100) Demo.alice)
                  eq_refl eq_refl eq_refl)).
Defined.

(** The node accepts a transaction whose hash the ledger already holds: the
    nonce is cached all the same. *)
Lemma nonce_cached_once_accepted_witness :
  redis (snd (SendTransactionHandler.post (Demo.node 100000 5 (inr "0x01"))
                (Demo.submission (Demo.transfer 5 21000 100) ∅)
                {| redis := ∅; db := store <$> Demo.ledger; trace := [] |}))
  !! nonce_key Demo.alice_address = Some "6".
Proof.
  destruct (nonce_cached_once_accepted (Demo.node 100000 5 (inr "0x01"))
              (Demo.submission (Demo.transfer 5 21000 100) ∅) None
              (Demo.transfer 5 21000 100) Demo.alice_address "0x01"
              {| redis := ∅; db := store <$> Demo.ledger; trace := [] |}
              (snd (SendTransactionHandler.check_funds (H := Demo.env)
                      (Demo.node 100000 5 (inr "0x01")) Demo.alice_address
                      (Demo.transfer 5 21000 100)
                      {| redis := ∅; db := store <$> Demo.ledger; trace := [] |}))
              (snd (SendTransactionHandler.check_nonce (H := Demo.env)
                      (Demo.node 100000 5 (inr "0x01")) Demo.alice_address
                      (Demo.transfer 5 21000 100)
                      (snd (SendTransactionHandler.check_funds (H := Demo.env)
                              (Demo.node 100000 5 (inr "0x01")) Demo.alice_address
                              (Demo.transfer 5 21000 100)
                              {| redis := ∅; db := store <$> Demo.ledger;
                                 trace := [] |})))))
    as [Hredis _].
  - demo_settled (Demo.transfer 5 21000 100) Demo.alice.
  - by vm_compute.
  - by vm_compute.
  - done.
  - rewrite Hredis. by vm_compute.
Defined.

(** ** The registration handlers *)

Section Registration.

Context `{E : External}.

Lemma py_len_iter (x : json) (n : nat) : py_len x = Some n → length (py_iter x) = n.
Proof.
  destruct x; simpl; try done; intros [= <-]; rewrite ?length_fmap; try done.
  induction s as [|c s IH]; simpl; by rewrite ?IH.
Qed.

Lemma py_iter_sized (x : json) (j : json) : j ∈ py_iter x → ∃ n, py_len x = Some (S n).
Proof.
  intros Hj. destruct (py_len x) as [[|n]|] eqn:Hl.
  - apply py_len_iter in Hl. apply nil_length_inv in Hl. rewrite Hl in Hj.
    by apply elem_of_nil in Hj.
  - by eauto.
  - destruct x; simpl in *; try done; by apply elem_of_nil in Hj.
Qed.

Lemma collect_spec (token_id : string) (addresses : list json) (insert_args : list string) :
  TransactionNotificationRegistrationHandler.collect token_id addresses insert_args
  = (λ l, insert_args ++ concat ((λ a, [token_id; a]) <$> l)) <$> mapM address_of addresses.
Proof.
  revert insert_args. induction addresses as [|j js IH]; intros acc; simpl.
  - by rewrite app_nil_r.
  - destruct (address_of j) as [a|]; simpl; [|done]. rewrite IH.
    destruct (mapM address_of js) as [l|]; simpl; [|done]. by rewrite <- app_assoc.
Qed.

Lemma lookup_insert_args (token_id : string) (l : list string) (i : nat) :
  concat ((λ a, [token_id; a]) <$> l) !! (i * 2)%nat = (λ _, token_id) <$> l !! i
  ∧ concat ((λ a, [token_id; a]) <$> l) !! S (i * 2) = l !! i.
Proof.
  revert i. induction l as [|a l IH]; intros [|i]; simpl; done.
Qed.

Lemma length_insert_args (token_id : string) (l : list string) :
  length (concat ((λ a, [token_id; a]) <$> l)) = (2 * length l)%nat.
Proof.
  induction l as [|a l IH]; [done|].
  rewrite fmap_cons. cbn [concat app length]. rewrite IH. simpl. lia.
Qed.

(** Lines 264-275: the arguments collected by the loop and the placeholders
    of the [VALUES] list agree; the rows they denote are the pairs of the
    token with each address, in order. *)
Lemma values_rows_spec (token_id : string) (l : list string) :
  TransactionNotificationRegistrationHandler.values_rows
    (TransactionNotificationRegistrationHandler.values_placeholders (length l))
    (concat ((λ a, [token_id; a]) <$> l))
  = Some (pair token_id <$> l).
Proof.
  unfold TransactionNotificationRegistrationHandler.values_rows,
    TransactionNotificationRegistrationHandler.values_placeholders.
  rewrite length_fmap, length_seq, length_insert_args.
  rewrite bool_decide_eq_true_2 by done. apply mapM_Some_2.
  apply Forall2_same_length_lookup_2; [by rewrite !length_fmap, length_seq|].
  intros i [p q] [t a] Hi Hr. rewrite list_lookup_fmap in Hi. rewrite list_lookup_fmap in Hr.
  destruct (l !! i) as [a'|] eqn:Ha; [|done]. injection Hr as <- <-.
  assert (i < length l)%nat as Hlt by (by eapply lookup_lt_Some).
  rewrite lookup_seq_lt in Hi by done. injection Hi as <- <-. simpl.
  destruct (lookup_insert_args token_id l i) as [H0 H1].
  rewrite Nat.add_1_r. simpl. rewrite H0, Ha. simpl.
  replace (i * 2 + 2)%nat with (S (S (i * 2))) by lia. simpl. by rewrite H1, Ha.
Qed.

Lemma condition_spec (token_id : string) (l : list string) (r : string * string) :
  TransactionNotificationDeregistrationHandler.matches
    (TransactionNotificationDeregistrationHandler.condition_placeholders (length l))
    (token_id :: l) r
  ↔ fst r = token_id ∧ snd r ∈ l.
Proof.
  unfold TransactionNotificationDeregistrationHandler.matches,
    TransactionNotificationDeregistrationHandler.condition_placeholders. simpl.
  rewrite Exists_exists. split.
  - intros [[= ->] (k & Hk & Hr)]. split; [done|].
    apply list_elem_of_fmap in Hk as (i & -> & Hi).
    replace (i + 2)%nat with (S (S i)) in Hr by lia. simpl in Hr.
    by eapply list_elem_of_lookup_2.
  - intros [-> Hin]. split; [done|].
    apply list_elem_of_lookup_1 in Hin as [i Hi]. exists (i + 2)%nat. split.
    + apply list_elem_of_fmap. exists i. split; [done|].
      apply elem_of_seq. apply lookup_lt_Some in Hi. lia.
    + replace (i + 2)%nat with (S (S i)) by lia. done.
Qed.

End Registration.

Lemma mapM_address_of_sized `{E : External} (x : json) (l : list string) :
  mapM address_of (py_iter x) = Some l → l ≠ [] →
  length (py_iter x) = length l ∧ ∃ n, py_len x = Some (S n).
Proof.
  intros Hl Hne. apply mapM_Some_1, Forall2_length in Hl. split; [done|].
  destruct (py_iter x) as [|j js] eqn:Hx.
  - destruct l; [done|discriminate].
  - apply (py_iter_sized x j). rewrite Hx. by left.
Qed.

(** [POST] to the notification registration: when the request verifies as
    [token_id] and every element of a non-empty [addresses] validates, the
    handler answers 204 and the table gains the pair of the token with each
    address, nothing else; the other table is untouched. *)
Theorem registration_registers_every_address `{E : External} (headers : Headers)
    (payload : gmap string json) (t : Registrations) (token_id : string) (x : json)
    (l : list string) :
  verify_request headers = inr token_id →
  payload !! "addresses" = Some x →
  mapM address_of (py_iter x) = Some l →
  l ≠ [] →
  TransactionNotificationRegistrationHandler.post headers payload t
  = (inr 204,
     {| notification_registrations :=
          notification_registrations t ∪ list_to_set (pair token_id <$> l);
        push_notification_registrations := push_notification_registrations t |}).
Proof.
  intros Hv Hx Hl Hne.
  destruct (mapM_address_of_sized x l Hl Hne) as [Hlen [n Hn]].
  unfold TransactionNotificationRegistrationHandler.post.
  rewrite Hv, Hx, Hn, collect_spec, Hl. simpl. rewrite Hlen.
  by rewrite values_rows_spec.
Qed.

Lemma registration_registers_every_address_witness :
  TransactionNotificationRegistrationHandler.post (H := Demo.env) (Some "0xtoken")
    {[ "addresses" := DemoRegistrations.addresses ]} DemoRegistrations.empty
  = (inr 204,
     {| notification_registrations :=
          ∅ ∪ list_to_set (pair "0xtoken" <$> [Demo.alice_address; Demo.bob_address]);
        push_notification_registrations := ∅ |}).
Proof.
  apply (registration_registers_every_address (E := Demo.env) (Some "0xtoken")
           {[ "addresses" := DemoRegistrations.addresses ]} DemoRegistrations.empty
           "0xtoken" DemoRegistrations.addresses [Demo.alice_address; Demo.bob_address]).
  - done.
  - by vm_compute.
  - by vm_compute.
  - done.
Defined.

(** Registration is all or nothing: if one element of [addresses] does not
    validate the handler fails with [bad_arguments] and registers none of
    them.  A single address sent as a string, not in a list, is such a case:
    its characters are the elements. *)
Theorem registration_all_or_nothing `{E : External} (headers : Headers)
    (payload : gmap string json) (t : Registrations) (token_id : string) (x j : json) :
  verify_request headers = inr token_id →
  payload !! "addresses" = Some x →
  j ∈ py_iter x →
  address_of j = None →
  TransactionNotificationRegistrationHandler.post headers payload t
  = (inl bad_arguments, t).
Proof.
  intros Hv Hx Hj Hbad. destruct (py_iter_sized x j Hj) as [n Hn].
  unfold TransactionNotificationRegistrationHandler.post.
  rewrite Hv, Hx, Hn, collect_spec.
  destruct (mapM address_of (py_iter x)) as [l|] eqn:Hl; [|done].
  apply mapM_Some_1 in Hl. apply list_elem_of_lookup_1 in Hj as [i Hi].
  destruct (Forall2_lookup_l _ _ _ _ _ Hl Hi) as (a & _ & Ha). congruence.
Qed.

Lemma registration_all_or_nothing_witness :
  TransactionNotificationRegistrationHandler.post (H := Demo.env) (Some "0xtoken")
    {[ "addresses" := JString Demo.alice_address ]} DemoRegistrations.empty
  = (inl bad_arguments, DemoRegistrations.empty).
Proof.
  apply (registration_all_or_nothing (E := Demo.env) (Some "0xtoken")
           {[ "addresses" := JString Demo.alice_address ]} DemoRegistrations.empty
           "0xtoken" (JString Demo.alice_address) (JString "0")).
  - done.
  - by vm_compute.
  - vm_compute. by left.
  - by vm_compute.
Defined.

(** Registering twice is registering once: running the handler again on the
    same request, from the state it left, gives the same answer and the same
    state. *)
Theorem registration_idempotent `{E : External} (headers : Headers)
    (payload : gmap string json) (t : Registrations) :
  TransactionNotificationRegistrationHandler.post headers payload
    (snd (TransactionNotificationRegistrationHandler.post headers payload t))
  = TransactionNotificationRegistrationHandler.post headers payload t.
Proof.
  unfold TransactionNotificationRegistrationHandler.post.
  repeat (case_match; simpl; try done).
  unfold TransactionNotificationRegistrationHandler.insert_rows. simpl.
  do 2 f_equal. apply set_eq. intros r. rewrite !elem_of_union. tauto.
Qed.

(** [POST] to the notification deregistration: when the request verifies
    as [token_id] and every element of a non-empty [addresses] validates, the
    handler answers 204 and removes exactly the registrations of that token
    for the listed addresses; registrations of other tokens, or of other
    addresses, stay. *)
Theorem deregistration_removes_own_only `{E : External} (headers : Headers)
    (payload : gmap string json) (t : Registrations) (token_id : string) (x : json)
    (l : list string) :
  verify_request headers = inr token_id →
  payload !! "addresses" = Some x →
  mapM address_of (py_iter x) = Some l →
  l ≠ [] →
  ∃ t',
    TransactionNotificationDeregistrationHandler.post headers payload t = (inr 204, t')
    ∧ push_notification_registrations t' = push_notification_registrations t
    ∧ ∀ r, r ∈ notification_registrations t'
           ↔ r ∈ notification_registrations t ∧ ¬ (fst r = token_id ∧ snd r ∈ l).
Proof.
  intros Hv Hx Hl Hne.
  destruct (mapM_address_of_sized x l Hl Hne) as [Hlen [n Hn]].
  unfold TransactionNotificationDeregistrationHandler.post,
    TransactionNotificationDeregistrationHandler.validated.
  rewrite Hv, Hx, Hn, Hl, Hlen.
  rewrite bool_decide_eq_true_2.
  2:{ unfold TransactionNotificationDeregistrationHandler.condition_placeholders.
      simpl. by rewrite length_fmap, length_seq. }
  eexists. split; [done|]. split; [done|]. intros r. simpl.
  rewrite elem_of_filter, condition_spec. tauto.
Qed.

Lemma deregistration_removes_own_only_witness :
  ∃ t',
    TransactionNotificationDeregistrationHandler.post (H := Demo.env) (Some "0xtoken")
      {[ "addresses" := DemoRegistrations.addresses ]} DemoRegistrations.registered
    = (inr 204, t')
    ∧ push_notification_registrations t'
      = push_notification_registrations DemoRegistrations.registered
    ∧ ∀ r, r ∈ notification_registrations t'
           ↔ r ∈ notification_registrations DemoRegistrations.registered
             ∧ ¬ (fst r = "0xtoken" ∧ snd r ∈ [Demo.alice_address; Demo.bob_address]).
Proof.
  apply (deregistration_removes_own_only (E := Demo.env) (Some "0xtoken")
           {[ "addresses" := DemoRegistrations.addresses ]} DemoRegistrations.registered
           "0xtoken" DemoRegistrations.addresses [Demo.alice_address; Demo.bob_address]).
  - done.
  - by vm_compute.
  - by vm_compute.
  - done.
Defined.

(** The two notification handlers take the same requests: whatever the
    table holds, one answers a request (204, or the error) as the other
    does. *)
Theorem registration_and_deregistration_answer_alike `{E : External} (headers : Headers)
    (payload : gmap string json) (t1 t2 : Registrations) :
  fst (TransactionNotificationRegistrationHandler.post headers payload t1)
  = fst (TransactionNotificationDeregistrationHandler.post headers payload t2).
Proof.
  unfold TransactionNotificationRegistrationHandler.post,
    TransactionNotificationDeregistrationHandler.post,
    TransactionNotificationDeregistrationHandler.validated.
  destruct (verify_request headers) as [e|token_id]; [done|].
  destruct (payload !! "addresses") as [x|]; [|done].
  destruct (py_len x) as [[|n]|] eqn:Hn; [done| |done].
  rewrite collect_spec.
  destruct (mapM address_of (py_iter x)) as [l|] eqn:Hl; simpl; [|done].
  pose proof (Forall2_length _ _ _ (mapM_Some_1 _ _ _ Hl)) as Hlen.
  rewrite Hlen, values_rows_spec. rewrite bool_decide_eq_true_2; [done|].
  unfold TransactionNotificationDeregistrationHandler.condition_placeholders.
  simpl. by rewrite length_fmap, length_seq.
Qed.

(** The registration is answered 204 exactly when the request verifies and
    [addresses] is there, is not empty and holds valid addresses only. *)
Theorem registration_accepts_iff `{E : External} (headers : Headers)
    (payload : gmap string json) (t : Registrations) :
  fst (TransactionNotificationRegistrationHandler.post headers payload t) = inr 204
  ↔ ∃ token_id x l,
      verify_request headers = inr token_id
      ∧ payload !! "addresses" = Some x
      ∧ mapM address_of (py_iter x) = Some l
      ∧ l ≠ [].
Proof.
  unfold TransactionNotificationRegistrationHandler.post. split.
  - destruct (verify_request headers) as [e|token_id]; [done|].
    destruct (payload !! "addresses") as [x|]; [|done].
    destruct (py_len x) as [[|n]|] eqn:Hn; [done| |done].
    rewrite collect_spec.
    destruct (mapM address_of (py_iter x)) as [l|] eqn:Hl; simpl; [|done].
    intros _. exists token_id, x, l. repeat split; try done.
    intros ->. apply mapM_Some_1, Forall2_length in Hl.
    apply py_len_iter in Hn. rewrite Hn in Hl. done.
  - intros (token_id & x & l & Hv & Hx & Hl & Hne).
    destruct (mapM_address_of_sized x l Hl Hne) as [Hlen [n Hn]].
    rewrite Hv, Hx, Hn, collect_spec, Hl. simpl. rewrite Hlen.
    by rewrite values_rows_spec.
Qed.

(** A request that does not verify is refused by all four registration
    handlers with the error of the verification, before the body is looked
    at, and no table changes. *)
Theorem unverified_registration_is_refused `{E : External}
    (text_param : json → exn + string) (headers : Headers) (service : string)
    (payload : gmap string json) (t : Registrations) (e : exn) :
  verify_request headers = inl e →
  TransactionNotificationRegistrationHandler.post headers payload t = (inl e, t)
  ∧ TransactionNotificationDeregistrationHandler.post headers payload t = (inl e, t)
  ∧ PNRegistrationHandler.post text_param headers service payload t = (inl e, t)
  ∧ PNDeregistrationHandler.post text_param headers service payload t = (inl e, t).
Proof.
  intros Hv.
  unfold TransactionNotificationRegistrationHandler.post,
    TransactionNotificationDeregistrationHandler.post,
    PNRegistrationHandler.post, PNDeregistrationHandler.post.
  by rewrite Hv.
Qed.

Lemma unverified_registration_is_refused_witness :
  let e := http_error 400 "invalid_signature" "Invalid Signature" in
  let payload : gmap string json :=
    {[ "addresses" := DemoRegistrations.addresses; "registration_id" := JString "device" ]} in
  TransactionNotificationRegistrationHandler.post (H := Demo.env) None payload
    DemoRegistrations.registered = (inl e, DemoRegistrations.registered)
  ∧ TransactionNotificationDeregistrationHandler.post (H := Demo.env) None payload
      DemoRegistrations.registered = (inl e, DemoRegistrations.registered)
  ∧ PNRegistrationHandler.post (H := Demo.env) DemoRegistrations.text_param None "gcm" payload
      DemoRegistrations.registered = (inl e, DemoRegistrations.registered)
  ∧ PNDeregistrationHandler.post (H := Demo.env) DemoRegistrations.text_param None "gcm" payload
      DemoRegistrations.registered = (inl e, DemoRegistrations.registered).
Proof.
  intros e payload.
  apply (unverified_registration_is_refused (E := Demo.env) DemoRegistrations.text_param
           None "gcm" payload DemoRegistrations.registered e).
  done.
Defined.

(** Each of the four registration handlers either answers 204 or fails and
    leaves both tables as they were. *)
Theorem registration_handlers_fail_clean `{E : External}
    (text_param : json → exn + string) (headers : Headers) (service : string)
    (payload : gmap string json) (t : Registrations) :
  Forall (λ outcome : (exn + Z) * Registrations,
            (∃ e, outcome = (inl e, t)) ∨ (∃ t', outcome = (inr 204, t')))
    [ TransactionNotificationRegistrationHandler.post headers payload t;
      TransactionNotificationDeregistrationHandler.post headers payload t;
      PNRegistrationHandler.post text_param headers service payload t;
      PNDeregistrationHandler.post text_param headers service payload t ].
Proof.
  unfold TransactionNotificationRegistrationHandler.post,
    TransactionNotificationDeregistrationHandler.post,
    PNRegistrationHandler.post, PNDeregistrationHandler.post.
  repeat apply Forall_cons_2; [..|apply Forall_nil_2];
    repeat (case_match; try (left; eexists; reflexivity);
            try (right; eexists; reflexivity)).
Qed.

(** Of a registration and a deregistration of the same request, run one
    after the other, the last decides: the state is the one the last alone
    would have left. *)
Theorem last_notification_request_decides `{E : External} (headers : Headers)
    (payload : gmap string json) (t : Registrations) :
  TransactionNotificationDeregistrationHandler.post headers payload
    (snd (TransactionNotificationRegistrationHandler.post headers payload t))
  = TransactionNotificationDeregistrationHandler.post headers payload t
  ∧ TransactionNotificationRegistrationHandler.post headers payload
      (snd (TransactionNotificationDeregistrationHandler.post headers payload t))
    = TransactionNotificationRegistrationHandler.post headers payload t.
Proof.
  unfold TransactionNotificationRegistrationHandler.post,
    TransactionNotificationDeregistrationHandler.post,
    TransactionNotificationDeregistrationHandler.validated.
  destruct (verify_request headers) as [e|token_id]; [done|].
  destruct (payload !! "addresses") as [x|]; [|done].
  destruct (py_len x) as [[|n]|] eqn:Hn; [done| |done].
  rewrite collect_spec.
  destruct (mapM address_of (py_iter x)) as [l|] eqn:Hl; simpl; [|done].
  pose proof (Forall2_length _ _ _ (mapM_Some_1 _ _ _ Hl)) as Hlen.
  rewrite Hlen, values_rows_spec. rewrite bool_decide_eq_true_2.
  2:{ unfold TransactionNotificationDeregistrationHandler.condition_placeholders.
      simpl. by rewrite length_fmap, length_seq. }
  simpl.
  unfold TransactionNotificationDeregistrationHandler.delete_rows,
    TransactionNotificationRegistrationHandler.insert_rows. simpl.
  split; do 2 f_equal; apply set_eq; intros r.
  - rewrite !elem_of_filter, elem_of_union, condition_spec, elem_of_list_to_set,
      list_elem_of_fmap.
    split.
    + intros [Hno [Hr|(a & -> & Ha)]]; [done|]. by destruct Hno.
    + intros [Hno Hr]. split; [done|]. by left.
  - rewrite !elem_of_union, elem_of_filter, condition_spec, elem_of_list_to_set,
      list_elem_of_fmap.
    split; [tauto|]. intros [Hr|Hr]; [|by right].
    destruct (decide (r.1 = token_id ∧ r.2 ∈ l)) as [[Ht Ha]|Hno].
    + right. exists (r.2). split; [|done]. destruct r; simpl in *. by subst.
    + left. done.
Qed.

(** Registering addresses that were not registered for the token and then
    deregistering them gives the table back. *)
Theorem register_then_deregister_restores `{E : External} (headers : Headers)
    (payload : gmap string json) (t : Registrations) (token_id : string) (x : json)
    (l : list string) :
  verify_request headers = inr token_id →
  payload !! "addresses" = Some x →
  mapM address_of (py_iter x) = Some l →
  l ≠ [] →
  (∀ a, a ∈ l → (token_id, a) ∉ notification_registrations t) →
  TransactionNotificationDeregistrationHandler.post headers payload
    (snd (TransactionNotificationRegistrationHandler.post headers payload t))
  = (inr 204, t).
Proof.
  intros Hv Hx Hl Hne Hfresh.
  destruct (mapM_address_of_sized x l Hl Hne) as [Hlen [n Hn]].
  unfold TransactionNotificationRegistrationHandler.post,
    TransactionNotificationDeregistrationHandler.post,
    TransactionNotificationDeregistrationHandler.validated.
  rewrite Hv, Hx, Hn, collect_spec, Hl. simpl. rewrite Hlen, values_rows_spec.
  rewrite bool_decide_eq_true_2.
  2:{ unfold TransactionNotificationDeregistrationHandler.condition_placeholders.
      simpl. by rewrite length_fmap, length_seq. }
  unfold TransactionNotificationDeregistrationHandler.delete_rows,
    TransactionNotificationRegistrationHandler.insert_rows. simpl.
  destruct t as [regs push]. simpl in *. do 2 f_equal. apply set_eq. intros r.
  rewrite elem_of_filter, elem_of_union, condition_spec, elem_of_list_to_set,
    list_elem_of_fmap.
  split.
  - intros [Hno [Hr|(a & -> & Ha)]]; [done|]. by destruct Hno.
  - intros Hr. split; [|by left]. intros [Ht Ha]. apply (Hfresh (r.2) Ha).
    destruct r; simpl in *. by subst.
Qed.

Lemma register_then_deregister_restores_witness :
  let payload : gmap string json :=
    {[ "addresses" := JArray [JString Demo.bob_address] ]} in
  TransactionNotificationDeregistrationHandler.post (H := Demo.env) (Some "0xtoken") payload
    (snd (TransactionNotificationRegistrationHandler.post (H := Demo.env) (Some "0xtoken")
            payload DemoRegistrations.registered))
  = (inr 204, DemoRegistrations.registered).
Proof.
  intros payload.
  apply (register_then_deregister_restores (E := Demo.env) (Some "0xtoken") payload
           DemoRegistrations.registered "0xtoken" (JArray [JString Demo.bob_address])
           [Demo.bob_address]).
  - done.
  - by vm_compute.
  - by vm_compute.
  - done.
  - intros a Ha. apply list_elem_of_singleton in Ha as ->.
    unfold DemoRegistrations.registered. simpl.
    rewrite elem_of_union, !elem_of_singleton. intros [[=]|[=]].
Defined.

(** ** The push-notification handlers *)

(** A device registered twice belongs to the last client: a registration
    that is accepted gives the same state whether or not another client, or
    the same, had registered the device just before. *)
Theorem pn_registration_last_writer_wins `{E : External}
    (text_param : json → exn + string) (first second : Headers) (service : string)
    (payload : gmap string json) (t : Registrations) :
  fst (PNRegistrationHandler.post text_param second service payload t) = inr 204 →
  PNRegistrationHandler.post text_param second service payload
    (snd (PNRegistrationHandler.post text_param first service payload t))
  = PNRegistrationHandler.post text_param second service payload t.
Proof.
  unfold PNRegistrationHandler.post.
  destruct (verify_request second) as [e2|token2]; [done|].
  destruct (payload !! "registration_id") as [x|]; [|done].
  destruct (text_param x) as [e|registration_id]; [done|]. intros _.
  destruct (verify_request first) as [e1|token1]; [done|]. simpl.
  unfold PNRegistrationHandler.upsert. simpl. by rewrite insert_insert_eq.
Qed.

Lemma pn_registration_last_writer_wins_witness :
  let payload : gmap string json := {[ "registration_id" := JString "device" ]} in
  fst (PNRegistrationHandler.post (H := Demo.env) DemoRegistrations.text_param
         (Some "0xtoken") "gcm" payload DemoRegistrations.empty) = inr 204
  ∧ PNRegistrationHandler.post (H := Demo.env) DemoRegistrations.text_param
      (Some "0xtoken") "gcm" payload
      (snd (PNRegistrationHandler.post (H := Demo.env) DemoRegistrations.text_param
              (Some "0xother") "gcm" payload DemoRegistrations.empty))
    = PNRegistrationHandler.post (H := Demo.env) DemoRegistrations.text_param
        (Some "0xtoken") "gcm" payload DemoRegistrations.empty.
Proof.
  intros payload.
  assert (fst (PNRegistrationHandler.post (H := Demo.env) DemoRegistrations.text_param
                 (Some "0xtoken") "gcm" payload DemoRegistrations.empty) = inr 204)
    as Haccepted by (by vm_compute).
  split; [exact Haccepted|].
  exact (pn_registration_last_writer_wins (E := Demo.env) DemoRegistrations.text_param
           (Some "0xother") (Some "0xtoken") "gcm" payload DemoRegistrations.empty
           Haccepted).
Defined.

(** Registering a device and deregistering it, as the same client, leaves
    no entry for the device, whoever held it before; the other entries and
    the other table stay. *)
Theorem pn_register_then_deregister `{E : External}
    (text_param : json → exn + string) (headers : Headers) (service : string)
    (payload : gmap string json) (t : Registrations) (token_id : string) (x : json)
    (registration_id : string) :
  verify_request headers = inr token_id →
  payload !! "registration_id" = Some x →
  text_param x = inr registration_id →
  PNDeregistrationHandler.post text_param headers service payload
    (snd (PNRegistrationHandler.post text_param headers service payload t))
  = (inr 204,
     {| notification_registrations := notification_registrations t;
        push_notification_registrations :=
          delete (service, registration_id) (push_notification_registrations t) |}).
Proof.
  intros Hv Hx Hp.
  unfold PNDeregistrationHandler.post, PNRegistrationHandler.post.
  rewrite Hv, Hx, Hp. simpl.
  unfold PNDeregistrationHandler.delete_registration, PNRegistrationHandler.upsert. simpl.
  do 2 f_equal. rewrite map_filter_insert_False by (simpl; tauto).
  apply map_filter_id. intros i v Hi. simpl. intros [-> _].
  by rewrite lookup_delete_eq in Hi.
Qed.

Lemma pn_register_then_deregister_witness :
  let t :=
    {| notification_registrations := ∅;
       push_notification_registrations := {[ ("gcm", "device") := "0xother" ]} |} in
  PNDeregistrationHandler.post (H := Demo.env) DemoRegistrations.text_param (Some "0xtoken")
    "gcm" {[ "registration_id" := JString "device" ]}
    (snd (PNRegistrationHandler.post (H := Demo.env) DemoRegistrations.text_param
            (Some "0xtoken") "gcm" {[ "registration_id" := JString "device" ]} t))
  = (inr 204,
     {| notification_registrations := notification_registrations t;
        push_notification_registrations :=
          delete ("gcm", "device") (push_notification_registrations t) |}).
Proof.
  intros t.
  apply (pn_register_then_deregister (E := Demo.env) DemoRegistrations.text_param
           (Some "0xtoken") "gcm" {[ "registration_id" := JString "device" ]} t
           "0xtoken" (JString "device") "device").
  - done.
  - by vm_compute.
  - done.
Defined.

(** Deregistering a device deletes its entry only when the entry belongs to
    the client that asks; otherwise the handler still answers 204 and nothing
    is deleted. *)
Theorem pn_deregistration_needs_owner `{E : External}
    (text_param : json → exn + string) (headers : Headers) (service : string)
    (payload : gmap string json) (t : Registrations) (token_id : string) (x : json)
    (registration_id : string) :
  verify_request headers = inr token_id →
  payload !! "registration_id" = Some x →
  text_param x = inr registration_id →
  PNDeregistrationHandler.post text_param headers service payload t
  = (inr 204,
     {| notification_registrations := notification_registrations t;
        push_notification_registrations :=
          if bool_decide (push_notification_registrations t !! (service, registration_id)
                          = Some token_id)
          then delete (service, registration_id) (push_notification_registrations t)
          else push_notification_registrations t |}).
Proof.
  intros Hv Hx Hp. unfold PNDeregistrationHandler.post. rewrite Hv, Hx, Hp.
  unfold PNDeregistrationHandler.delete_registration. do 2 f_equal.
  apply map_eq. intros i. apply option_eq. intros v.
  rewrite map_lookup_filter_Some. simpl. case_bool_decide as Hown.
  - rewrite lookup_delete_Some. split.
    + intros [Hi Hno]. split; [|done]. intros Heq. subst i. apply Hno.
      split; [done|]. congruence.
    + intros [Hne Hi]. split; [done|]. intros [Heq _]. done.
  - split; [tauto|]. intros Hi. split; [done|]. intros [Heq Hv']. subst i v. done.
Qed.

Lemma pn_deregistration_needs_owner_witness :
  let t :=
    {| notification_registrations := ∅;
       push_notification_registrations := {[ ("gcm", "device") := "0xother" ]} |} in
  PNDeregistrationHandler.post (H := Demo.env) DemoRegistrations.text_param (Some "0xtoken")
    "gcm" {[ "registration_id" := JString "device" ]} t
  = (inr 204,
     {| notification_registrations := notification_registrations t;
        push_notification_registrations :=
          if bool_decide (push_notification_registrations t !! ("gcm", "device")
                          = Some "0xtoken")
          then delete ("gcm", "device") (push_notification_registrations t)
          else push_notification_registrations t |}).
Proof.
  intros t.
  apply (pn_deregistration_needs_owner (E := Demo.env) DemoRegistrations.text_param
           (Some "0xtoken") "gcm" {[ "registration_id" := JString "device" ]} t
           "0xtoken" (JString "device") "device").
  - done.
  - by vm_compute.
  - done.
Defined.
